(** * osd-launcher: a shallow embedding of the launcher's core

    The development follows the layout of the JavaScript sources:
    [lib/utils.js], [lib/subprocess.js], [lib/dashboards.js],
    [lib/opensearch.js] and [cli.js].  Pure helpers become functions,
    file contents are strings, the download cache is a finite map from
    paths to contents, and everything the program only observes (the
    kernel's answer to a signal, an HTTP exchange, the moment a child
    closes, the time a probe takes) is an explicit argument of the
    function that observes it.  Synchronous code takes no time: the clock
    moves only where the source awaits. *)

From Stdlib Require Import ZArith Lia Ascii String List Bool.
From stdpp Require Import base gmap strings list.

Set Warnings "-register-all".

(** ** JavaScript strings

    Strings are sequences of code units below 256; the helpers follow
    [String.prototype.includes], [startsWith], [split], [trim] and
    [Array.prototype.join] on that alphabet. *)
Module JsString.

Definition LF : ascii := ascii_of_nat 10.
Definition CR : ascii := ascii_of_nat 13.

(** The double-quote character, as a string. *)
Definition dq : string := String (ascii_of_nat 34) EmptyString.

Fixpoint startsWith (s t : string) {struct t} : bool :=
  match t, s with
  | EmptyString, _ => true
  | String c t', String d s' => Ascii.eqb c d && startsWith s' t'
  | String _ _, EmptyString => false
  end.

(** [includes s t]: [t] occurs in [s] as a substring. *)
Fixpoint includes (s t : string) : bool :=
  startsWith s t ||
  match s with
  | EmptyString => false
  | String _ s' => includes s' t
  end.

(** [split sep s] is [s.split(sep)] for a one-character separator. *)
Fixpoint split (sep : ascii) (s : string) : list string :=
  match s with
  | EmptyString => [EmptyString]
  | String c s' =>
      if Ascii.eqb c sep then EmptyString :: split sep s'
      else match split sep s' with
           | h :: t => String c h :: t
           | [] => [String c EmptyString]
           end
  end.

Fixpoint join (sep : string) (l : list string) : string :=
  match l with
  | [] => EmptyString
  | x :: rest =>
      match rest with
      | [] => x
      | _ :: _ => x +:+ sep +:+ join sep rest
      end
  end.

(** White space and line terminators among the code units below 256. *)
Definition is_space (c : ascii) : bool :=
  let n := nat_of_ascii c in
  (Nat.leb 9 n && Nat.leb n 13) || Nat.eqb n 32 || Nat.eqb n 160.

Fixpoint trimStart (s : string) : string :=
  match s with
  | String c s' => if is_space c then trimStart s' else s
  | EmptyString => EmptyString
  end.

Fixpoint trimEnd (s : string) : string :=
  match s with
  | EmptyString => EmptyString
  | String c s' =>
      match trimEnd s' with
      | EmptyString => if is_space c then EmptyString else String c EmptyString
      | r => String c r
      end
  end.

Definition trim (s : string) : string := trimEnd (trimStart s).

Definition is_digit (c : ascii) : bool :=
  let n := nat_of_ascii c in Nat.leb 48 n && Nat.leb n 57.

Definition lower (c : ascii) : ascii :=
  let n := nat_of_ascii c in
  if Nat.leb 65 n && Nat.leb n 90 then ascii_of_nat (n + 32) else c.

(** Case-insensitive prefix test; on a match the rest of [s] is returned. *)
Fixpoint stripPrefixCI (t s : string) {struct t} : option string :=
  match t, s with
  | EmptyString, _ => Some s
  | String c t', String d s' =>
      if Ascii.eqb (lower c) (lower d) then stripPrefixCI t' s' else None
  | String _ _, EmptyString => None
  end.

(** A string-or-undefined value used as a condition: the empty string and
    [undefined] are falsy. *)
Definition truthy (v : option string) : bool :=
  match v with
  | Some (String _ _) => true
  | _ => false
  end.

(** [v === undefined] *)
Definition isUndefined (v : option string) : bool :=
  match v with
  | None => true
  | Some _ => false
  end.

End JsString.

(** ** lib/utils.js *)
Module Utils.
Import JsString.

(** *** [isVersion]: the regular expression [/^\d+\.\d+\.\d+$/] *)

Fixpoint skipDigits (s : string) : string :=
  match s with
  | String c s' => if is_digit c then skipDigits s' else s
  | EmptyString => EmptyString
  end.

(** [\d+], greedy: one digit at least, then as many as follow. *)
Definition digits1 (s : string) : option string :=
  match s with
  | String c s' => if is_digit c then Some (skipDigits s') else None
  | EmptyString => None
  end.

Definition dot (s : string) : option string :=
  match s with
  | String c s' => if Ascii.eqb c "."%char then Some s' else None
  | EmptyString => None
  end.

Definition isVersion (value : string) : bool :=
  match digits1 value with
  | None => false
  | Some r1 =>
      match dot r1 with
      | None => false
      | Some r2 =>
          match digits1 r2 with
          | None => false
          | Some r3 =>
              match dot r3 with
              | None => false
              | Some r4 =>
                  match digits1 r4 with
                  | Some EmptyString => true
                  | _ => false
                  end
              end
          end
      end
  end.

(** [RegExp.prototype.test] turns its argument into a string first, so an
    absent option is tested as the text [undefined]. *)
Definition isVersionJs (value : option string) : bool :=
  match value with
  | Some s => isVersion s
  | None => isVersion "undefined"
  end.

(** *** Line-oriented edits of a configuration file

    [readLines] is the sequence of ['line'] events of a [readline]
    interface with [crlfDelay: Infinity]: the text is cut at every CR LF,
    LF or CR, and what follows the last terminator is a line only when it
    is not empty. *)

Fixpoint segments (s : string) : list string :=
  match s with
  | EmptyString => [EmptyString]
  | String c s' =>
      if Ascii.eqb c LF then EmptyString :: segments s'
      else if Ascii.eqb c CR then
        match s' with
        | String d s'' =>
            if Ascii.eqb d LF then EmptyString :: segments s''
            else EmptyString :: segments s'
        | EmptyString => EmptyString :: segments s'
        end
      else match segments s' with
           | h :: t => String c h :: t
           | [] => [String c EmptyString]
           end
  end.

Fixpoint dropLastEmpty (l : list string) : list string :=
  match l with
  | [] => []
  | x :: rest =>
      match rest with
      | [] => match x with EmptyString => [] | _ => [x] end
      | _ :: _ => x :: dropLastEmpty rest
      end
  end.

Definition readLines (content : string) : list string :=
  dropLastEmpty (segments content).

(** What the writer of [_deleteFromFile] and [_changeInFile] produces:
    every line followed by a line feed. *)
Fixpoint writeLines (lines : list string) : string :=
  match lines with
  | [] => EmptyString
  | l :: rest => l +:+ String LF (writeLines rest)
  end.

(** The test of the 'line' listener: the line holds none of the texts. *)
Definition survives (texts : list string) (line : string) : bool :=
  negb (existsb (fun str => includes line str) texts).

(** [_deleteFromFile(file, texts)], as the new content of [file] in terms
    of the old one.  The previous content is kept beside it as
    [file.bak]; [texts] is the array the source normalises its argument
    to. *)
Definition _deleteFromFile (texts : list string) (content : string) : string :=
  writeLines (List.filter (survives texts) (readLines content)).

(** [_appendToFile(file, texts)] for an array [texts]. *)
Definition _appendToFile (texts : list string) (content : string) : string :=
  content +:+ String LF (join (String LF EmptyString) texts +:+ String LF EmptyString).

(** *** [_download]

    The cache directory is a finite map from paths to file contents
    (directories are not modelled, so [mkdirSync] has no effect here).
    One HTTP exchange is what [get] reports for a URL: a request error, or
    a response with its status, its [Location] header, the chunks that
    reached the write stream and the way that stream ended. *)

Inductive Ending :=
| Finish (renamed : bool)        (* 'finish'; [renamed]: renameSync succeeds *)
| StreamError (message : string) (* 'error' on the write stream *)
| Stalled.                       (* the response was cut short: no event *)

Inductive Exchange :=
| RequestError (message : string)
| Response (statusCode : Z) (statusMessage : string)
           (location : option string) (chunks : list string) (ending : Ending).

Inductive Reason :=
| DownloadFailed (statusCode : Z) (statusMessage : string)
| Message (message : string).

Inductive Settled :=
| Resolved (dest : string)
| Rejected (reason : Reason)
| Uncaught      (* an exception escaped the 'finish' listener *)
| Unsettled.    (* the promise is still pending *)

(** [response.pipe(fs)]: each chunk is appended to the temporary file;
    the result lists the state after every write. *)
Fixpoint pipeChunks (tmpDest : string) (chunks : list string)
         (fs : gmap string string) : list (gmap string string) :=
  match chunks with
  | [] => []
  | c :: rest =>
      let fs' := <[tmpDest := default EmptyString (fs !! tmpDest) +:+ c]> fs in
      fs' :: pipeChunks tmpDest rest fs'
  end.

(** The bytes of a response, chunk after chunk. *)
Fixpoint wholeBody (chunks : list string) : string :=
  match chunks with
  | [] => EmptyString
  | c :: rest => c +:+ wholeBody rest
  end.

(** The result pairs the promise's fate with every state the cache went
    through, oldest first.  [fuel] bounds the redirects followed. *)
Fixpoint _download (net : string -> Exchange)
         (newURL : string -> string -> string) (fuel : nat)
         (url dest : string) (fs : gmap string string)
  : Settled * list (gmap string string) :=
  let tmpDest := dest +:+ ".temp" in
  let fs1 := delete tmpDest fs in
  match net url with
  | RequestError message => (Rejected (Message message), [fs1])
  | Response statusCode statusMessage location chunks ending =>
      if (statusCode <? 200)%Z || (400 <=? statusCode)%Z then
        (Rejected (DownloadFailed statusCode statusMessage), [fs1])
      else if (300 <? statusCode)%Z then
        if truthy location then
          match fuel with
          | O => (Unsettled, [fs1])
          | S fuel' =>
              let '(fate, states) :=
                _download net newURL fuel'
                          (newURL (default EmptyString location) url) dest fs1 in
              (fate, fs1 :: states)
          end
        else (Rejected (DownloadFailed statusCode statusMessage), [fs1])
      else
        let fs2 := <[tmpDest := EmptyString]> fs1 in
        let written := pipeChunks tmpDest chunks fs2 in
        let fs3 := default fs2 (last written) in
        match ending with
        | StreamError message =>
            (Rejected (Message message), fs1 :: fs2 :: written)
        | Stalled => (Unsettled, fs1 :: fs2 :: written)
        | Finish renamed =>
            let fs4 := delete dest fs3 in
            if renamed then
              let fs5 :=
                <[dest := default EmptyString (fs3 !! tmpDest)]> (delete tmpDest fs4) in
              (Resolved dest, fs1 :: fs2 :: written ++ [fs4; fs5])
            else (Uncaught, fs1 :: fs2 :: written ++ [fs4])
        end
  end.

(** *** [_changeInFile]

    [texts] lists the entries of the object in the order of
    [Object.keys].  [replacement] is the body of the 'line' listener: the
    value of the first key that the line holds, if there is one. *)

Fixpoint replacement (texts : list (string * string)) (line : string)
  : option string :=
  match texts with
  | [] => None
  | (key, value) :: rest =>
      if includes line key then Some value else replacement rest line
  end.

(** The new content of the file and the boolean the function returns. *)
Definition _changeInFile (texts : list (string * string)) (content : string)
  : string * bool :=
  let lines := readLines content in
  (writeLines (map (fun line => default line (replacement texts line)) lines),
   existsb (fun line => negb (isUndefined (replacement texts line))) lines).

(** *** [_spawnRetry]

    [closeCode n] is the code of the 'close' event of the spawn made after
    [n] failures ([None] for a child ended by a signal); [tries] is the
    third argument, [None] when it is left out.  The result tells how the
    loop ended, after how many failures, and the time spent in the waits. *)

Inductive Retried :=
| Completed (failures : nat)
| Rethrown (failures : nat) (code : option Z)
| Retrying.

Fixpoint _spawnRetry (closeCode : nat -> option Z) (tries : option Z)
         (fuel _tryCount : nat) : Retried * Z :=
  match fuel with
  | O => (Retrying, 0%Z)
  | S fuel' =>
      match closeCode _tryCount with
      | Some 0%Z => (Completed _tryCount, 0%Z)
      | code =>
          let retry :=
            match tries with
            | Some n => (Z.of_nat (S _tryCount) <? n)%Z
            | None => false
            end in
          if retry then
            let '(ending, waited) :=
              _spawnRetry closeCode tries fuel' (S _tryCount) in
            (ending, (30000 + waited)%Z)
          else (Rethrown (S _tryCount) code, 0%Z)
      end
  end.

(** *** [camelCase]

    [toUpperCase] is [String.prototype.toUpperCase] on one code unit; for
    some code units above 127 its result lies outside the alphabet used
    here, so it is an argument.  [None] is the TypeError of
    [word[0].toUpperCase()] on an empty word. *)

Definition capitalise (toUpperCase : ascii -> string) (word : string)
  : option string :=
  match word with
  | EmptyString => None
  | String c rest => Some (toUpperCase c +:+ rest)
  end.

(** [reduce] without an initial value: from the second word on. *)
Fixpoint reduceWords (toUpperCase : ascii -> string) (str : string)
         (words : list string) : option string :=
  match words with
  | [] => Some str
  | word :: rest =>
      match capitalise toUpperCase word with
      | None => None
      | Some capitalised => reduceWords toUpperCase (str +:+ capitalised) rest
      end
  end.

Definition camelCase (toUpperCase : ascii -> string) (str : string)
  : option string :=
  match split "-" str with
  | [] => None
  | first :: rest => reduceWords toUpperCase first rest
  end.

(** *** [isGitHubSource]: [/^github:(\/\/)?[^\/]+(\/[^\/]+\/[^\/]+)?$/i] *)

Definition nonEmpty (s : string) : bool :=
  match s with
  | EmptyString => false
  | String _ _ => true
  end.

Definition isGitHubSource (value : string) : bool :=
  match stripPrefixCI "github:" value with
  | None => false
  | Some rest =>
      match split "/" (default rest (stripPrefixCI "//" rest)) with
      | [user] => nonEmpty user
      | [user; repo; branch] => nonEmpty user && nonEmpty repo && nonEmpty branch
      | _ => false
      end
  end.

(** *** The test [/^1\.[0-2]\./] of [downloadOpenSearch] and
    [downloadDashboards] *)

Definition fromReleaseBundle (version : string) : bool :=
  match version with
  | String a (String b (String c (String d _))) =>
      Ascii.eqb a "1" && Ascii.eqb b "."
      && (Ascii.eqb c "0" || Ascii.eqb c "1" || Ascii.eqb c "2")
      && Ascii.eqb d "."
  | _ => false
  end.

End Utils.

(** ** lib/subprocess.js

    The module owns the process-wide array [subprocesses].  The world
    below holds that array next to what the launcher does to the outside:
    the signals it sends, the timers it arms and the handles it touches.
    Console output is left out, except the [console.error] of
    [killSubprocesses], which is the only trace of a signal that failed. *)
Module Subprocess.

Inductive Signal := SIGTERM | SIGKILL | SIG0.

Inductive Errno := ESRCH | EPERM | EINVAL.

Definition errno_eqb (a b : Errno) : bool :=
  match a, b with
  | ESRCH, ESRCH | EPERM, EPERM | EINVAL, EINVAL => true
  | _, _ => false
  end.

(** A [ChildProcess] object: [handle] is the identity of the object,
    [pid] the process it stands for. *)
Record ChildProcess := { handle : nat; pid : Z }.

Inductive Stream := Stdout | Stderr.

(** The body of the timer armed by [killSubprocesses]. *)
Inductive Callback := KillIfAlive (proc : ChildProcess).

Inductive Event :=
| ProcessKill (target : Z) (sig : Signal) (failure : option Errno)
| ChildKill (child : ChildProcess) (sig : Signal)
| Unref (child : ChildProcess)
| Spawn (child : ChildProcess) (command : string) (args : list string)
| Pipe (child : ChildProcess) (stream : Stream)
| Unpipe (child : ChildProcess) (stream : Stream)
| HealthCheck (start : Z)
| Sleep (delay : Z)
| ConsoleError (code : Errno).

Record World := {
  now : Z;                                   (* Date.now(), milliseconds *)
  nextHandle : nat;                          (* objects allocated so far *)
  subprocesses : list (option ChildProcess); (* [None] is a null entry *)
  timers : list (Z * Callback);              (* pending setTimeout calls *)
  events : list Event                        (* oldest first *)
}.

Definition emit (e : Event) (w : World) : World :=
  {| now := now w; nextHandle := nextHandle w;
     subprocesses := subprocesses w; timers := timers w;
     events := events w ++ [e] |}.

Definition elapse (ms : Z) (w : World) : World :=
  {| now := (now w + ms)%Z; nextHandle := nextHandle w;
     subprocesses := subprocesses w; timers := timers w;
     events := events w |}.

(** The kernel's verdict on [kill(target, sig)]: [None] is success. *)
Definition Kernel := Z -> Signal -> option Errno.

(** Computations that may throw: a state monad over [World] whose result
    is a value or the error code of the exception in flight. *)
Definition Js (A : Type) : Type := World -> (A + Errno) * World.

Definition ret {A} (a : A) : Js A := fun w => (inl a, w).

Definition bind {A B} (m : Js A) (f : A -> Js B) : Js B :=
  fun w =>
    match m w with
    | (inl a, w') => f a w'
    | (inr e, w') => (inr e, w')
    end.

Definition tryCatch {A} (body : Js A) (handler : Errno -> Js A) : Js A :=
  fun w =>
    match body w with
    | (inl a, w') => (inl a, w')
    | (inr e, w') => handler e w'
    end.

Definition act (f : World -> World) : Js unit := fun w => (inl tt, f w).

Notation "'let*' x ':=' m 'in' k" := (bind m (fun x => k))
  (at level 10, x name, m at level 100, k at level 200).
Notation "m ;; k" := (bind m (fun _ => k))
  (at level 100, right associativity).

(** [process.kill(target, sig)]: throws when the kernel refuses. *)
Definition processKill (kernel : Kernel) (target : Z) (sig : Signal) : Js unit :=
  fun w =>
    match kernel target sig with
    | None => (inl tt, emit (ProcessKill target sig None) w)
    | Some code => (inr code, emit (ProcessKill target sig (Some code)) w)
    end.

Definition setTimeout (cb : Callback) (delay : Z) : Js unit :=
  act (fun w =>
         {| now := now w; nextHandle := nextHandle w;
            subprocesses := subprocesses w;
            timers := timers w ++ [(delay, cb)];
            events := events w |}).

Definition isProcessAlive (kernel : Kernel) (pid : Z) : Js bool :=
  if (pid =? 0)%Z then ret true
  else tryCatch (processKill kernel pid SIG0 ;; ret true)
                (fun err => ret (errno_eqb err EPERM)).

(** One turn of the [for ... of] loop of [killSubprocesses]. *)
Definition killSubprocess (kernel : Kernel) (entry : option ChildProcess) : Js unit :=
  match entry with
  | None => ret tt
  | Some proc =>
      act (emit (Unref proc)) ;;
      tryCatch
        (processKill kernel (- pid proc) SIGTERM ;;
         setTimeout (KillIfAlive proc) 5000)
        (fun ex =>
           if negb (errno_eqb ex ESRCH) then act (emit (ConsoleError ex))
           else ret tt)
  end.

Fixpoint forOf {A} (body : A -> Js unit) (l : list A) : Js unit :=
  match l with
  | [] => ret tt
  | x :: rest => body x ;; forOf body rest
  end.

Definition killSubprocesses (kernel : Kernel) : Js unit :=
  fun w => forOf (killSubprocess kernel) (subprocesses w) w.

Definition recordProcess (process : ChildProcess) (w : World) : World :=
  {| now := now w; nextHandle := nextHandle w;
     subprocesses := subprocesses w ++ [Some process];
     timers := timers w; events := events w |}.

(** What a timer does when it fires, under the kernel of that moment. *)
Definition fire (kernel : Kernel) (cb : Callback) : Js unit :=
  match cb with
  | KillIfAlive proc =>
      let* alive := isProcessAlive kernel (pid proc) in
      if alive then processKill kernel (- pid proc) SIGKILL else ret tt
  end.

(** The signals the launcher asked the kernel to deliver, in order. *)
Fixpoint signalled (es : list Event) : list (Z * Signal) :=
  match es with
  | [] => []
  | ProcessKill target sig _ :: rest => (target, sig) :: signalled rest
  | _ :: rest => signalled rest
  end.

(** The non-null entries of the array, in order. *)
Fixpoint entries (l : list (option ChildProcess)) : list ChildProcess :=
  match l with
  | [] => []
  | Some proc :: rest => proc :: entries rest
  | None :: rest => entries rest
  end.

(** How often the object [child] occurs in the array. *)
Fixpoint occurrences (child : ChildProcess) (l : list (option ChildProcess)) : nat :=
  match l with
  | [] => O
  | Some proc :: rest =>
      if Nat.eqb (handle proc) (handle child) then S (occurrences child rest)
      else occurrences child rest
  | None :: rest => occurrences child rest
  end.

(** Every object in the array was allocated before the next one will be. *)
Definition registryFresh (w : World) : Prop :=
  Forall (fun proc => handle proc < nextHandle w) (entries (subprocesses w)).

(** The zero-signal probe a timer makes before it decides. *)
Definition probeOf (proc : ChildProcess) : list (Z * Signal) :=
  if (pid proc =? 0)%Z then [] else [(pid proc, SIG0)].

End Subprocess.

(** ** The options object that [cli.js] hands to both services *)
Module Options.

Record Options := {
  destination : string;
  opensearchVersion : option string;   (* [None]: the flag was not given *)
  dashboardsVersion : option string;
  refreshDownloads : bool;
  opensearchHost : string;
  opensearchPort : string;
  dashboardsHost : string;
  dashboardsPort : string;
  username : string;
  password : string;
  security : bool;                     (* [opts.security === true] *)
  build : bool                         (* [opts.build === true] *)
}.

(** [path.join] on operands that need no normalising. *)
Definition pathJoin (a b : string) : string := a +:+ "/" +:+ b.

(** What config.js reads from the machine: [os.homedir()],
    [process.platform] and [process.arch]. *)
Record Machine := {
  homedir : string;
  platform : string;
  arch : string
}.

Definition tmpDir (m : Machine) : string := pathJoin (homedir m) ".osd-launcher".

Definition PLATFORM (m : Machine) : string :=
  if String.eqb (platform m) "win32" then "windows" else platform m.

Definition ARCH (m : Machine) : string :=
  if String.eqb (arch m) "arm64" then "arm64" else "x64".

Definition EXTENSION (m : Machine) : string :=
  if String.eqb (platform m) "win32" then "zip" else "tar.gz".

Definition TYPE (m : Machine) : string :=
  if String.eqb (platform m) "win32" then "zip" else "tar".

(** [existsSync] on the cache, which holds files only. *)
Definition existsIn (fs : gmap string string) (path : string) : bool :=
  match fs !! path with
  | Some _ => true
  | None => false
  end.

End Options.

(** ** HTTP exchanges and JSON bodies, as the health probes see them *)
Module Http.
Import JsString.

Inductive Json :=
| JNull
| JBool (b : bool)
| JNumber (n : Z)
| JString (s : string)
| JArray (items : list Json)
| JObject (fields : list (string * Json)).

(** [JSON.parse] keeps the last of several members with one name. *)
Fixpoint member (key : string) (fields : list (string * Json)) : option Json :=
  match fields with
  | [] => None
  | (k, v) :: rest =>
      match member key rest with
      | Some later => Some later
      | None => if String.eqb k key then Some v else None
      end
  end.

(** [v?.key] for the keys the probes read; [None] is [undefined]. *)
Definition prop (key : string) (v : option Json) : option Json :=
  match v with
  | Some (JObject fields) => member key fields
  | _ => None
  end.

(** [v === text] *)
Definition isText (text : string) (v : option Json) : bool :=
  match v with
  | Some (JString s) => String.eqb s text
  | _ => false
  end.

Record Request := {
  url : string;
  basicAuth : option string;   (* [user:pass], sent base64-encoded *)
  verifiesPeer : bool          (* false under [rejectUnauthorized: false] *)
}.

Inductive Reply :=
| NetworkError
| HttpReply (statusCode : Z) (contentType : option string)
            (body : option Json).  (* [None]: the text is not JSON *)

(** What a health check hands back to the poll loop. *)
Inductive CheckResult :=
| CTrue
| CFalse
| CUndefined
| Raised.   (* an exception that nothing catches *)

End Http.

(** ** The poll loop of [runOpenSearch] and [runDashboards]

    Both functions run the same [do ... while (true)] body, with their own
    health check.  Iteration [k] of the loop meets the tick [env k]: what
    the probe is answered, how long that takes, whether the child's
    'close' event arrives while the probe or the following wait is
    pending, and how late the timer of the wait fires. *)
Module Supervisor.
Import Subprocess Http.

Record Tick (Answer : Type) := {
  answer : Answer;
  latency : Z;
  closeInProbe : bool;
  closeInWait : bool;
  lateness : Z
}.
Arguments answer {Answer} _.
Arguments latency {Answer} _.
Arguments closeInProbe {Answer} _.
Arguments closeInWait {Answer} _.
Arguments lateness {Answer} _.

Inductive Outcome :=
| Started (child : ChildProcess)   (* the handle is returned *)
| Failed                           (* [undefined] is returned *)
| Aborted                          (* the health check raised *)
| Spinning.                        (* still polling when fuel ran out *)

(** The delay a Node timer really uses. *)
Definition timerDelay (delay : Z) : Z :=
  if (1 <=? delay)%Z && (delay <=? 2147483647)%Z then delay else 1%Z.

Fixpoint superviseLoop {Answer} (healthCheck : Answer -> CheckResult)
         (env : nat -> Tick Answer) (fuel k : nat)
         (timerStart timeoutSeconds : Z) (child : ChildProcess)
         (closed : bool) (w : World) : Outcome * World :=
  match fuel with
  | O => (Spinning, w)
  | S fuel' =>
      let t := env k in
      let tryStart := now w in
      let w1 := elapse (latency t) (emit (HealthCheck tryStart) w) in
      let closed1 := closed || closeInProbe t in
      match healthCheck (answer t) with
      | Raised => (Aborted, w1)
      | CTrue =>
          (Started child,
           recordProcess child
             (emit (Unpipe child Stderr) (emit (Unpipe child Stdout) w1)))
      | CFalse | CUndefined =>
          if closed1 || (timeoutSeconds * 1000 <? now w1 - timerStart)%Z then
            (Failed, emit (Unref child) (emit (ChildKill child SIGTERM) w1))
          else
            let delay := (5000 - now w1 + tryStart)%Z in
            let w2 := elapse (timerDelay delay + lateness t)
                             (emit (Sleep delay) w1) in
            superviseLoop healthCheck env fuel' (S k) timerStart
                          timeoutSeconds child (closed1 || closeInWait t) w2
      end
  end.

(** [spawn(command, args, {detached: true, stdio: [ignore, pipe, pipe]})]
    followed by the two [pipe] calls. *)
Definition spawnPiped (command : string) (args : list string) (childPid : Z)
           (w : World) : ChildProcess * World :=
  let child := {| handle := nextHandle w; pid := childPid |} in
  let w' := {| now := now w; nextHandle := S (nextHandle w);
               subprocesses := subprocesses w; timers := timers w;
               events := events w ++ [Spawn child command args] |} in
  (child, emit (Pipe child Stderr) (emit (Pipe child Stdout) w')).

(** From the start of one attempt to the start of the next. *)
Definition period {Answer} (t : Tick Answer) : Z :=
  (latency t + timerDelay (5000 - latency t) + lateness t)%Z.

(** The state in which the check of an iteration comes back. *)
Definition probed {Answer} (t : Tick Answer) (w : World) : World :=
  elapse (latency t) (emit (HealthCheck (now w)) w).

(** The state in which the next iteration starts. *)
Definition rested {Answer} (t : Tick Answer) (w : World) : World :=
  elapse (timerDelay (5000 - latency t) + lateness t)
         (emit (Sleep (5000 - latency t)) (probed t w)).

(** The start times of the health checks made, oldest first. *)
Fixpoint probeStarts (es : list Event) : list Z :=
  match es with
  | [] => []
  | HealthCheck start :: rest => start :: probeStarts rest
  | _ :: rest => probeStarts rest
  end.

(** A check that came back, and not with [true]. *)
Definition notYet (r : CheckResult) : Prop := r = CFalse \/ r = CUndefined.

(** A service that never gets healthy while its process stays up: every
    check comes back falsy after a latency that is not negative, no
    'close' event arrives, and the timers fire on time. *)
Definition NeverHealthy {Answer} (healthCheck : Answer -> CheckResult)
           (env : nat -> Tick Answer) : Prop :=
  forall k,
    notYet (healthCheck (answer (env k)))
    /\ closeInProbe (env k) = false
    /\ closeInWait (env k) = false
    /\ (0 <= latency (env k))%Z
    /\ lateness (env k) = 0%Z.

(** A check that says no twice and then yes, to a process that is still
    up and within its budget at the first two checks. *)
Record FalseFalseTrue {Answer} (healthCheck : Answer -> CheckResult)
       (env : nat -> Tick Answer) (timeoutSeconds : Z) : Prop := {
  first_no : notYet (healthCheck (answer (env 0)));
  second_no : notYet (healthCheck (answer (env 1)));
  third_yes : healthCheck (answer (env 2)) = CTrue;
  open_first : closeInProbe (env 0) = false /\ closeInWait (env 0) = false;
  open_second : closeInProbe (env 1) = false;
  budget_first : (latency (env 0%nat) <= timeoutSeconds * 1000)%Z;
  budget_second :
    (period (env 0%nat) + latency (env 1%nat) <= timeoutSeconds * 1000)%Z
}.

End Supervisor.

(** ** lib/dashboards.js *)
Module Dashboards.
Import JsString Utils Options Http Subprocess Supervisor.

(** An entry of the [projects] configuration. *)
Record Project := {
  slug : string;
  name : string;
  src : string;
  releaseName : option string
}.

Record Source := {
  user : option string;
  repo : option string;
  branch : option string
}.

Inductive Thrown :=
| UnknownKey (slug : string)
| NoSourceFound (name : string) (requestedSource osdBranch : option string).

Inductive Result (A : Type) :=
| Ok (value : A)
| Throw (error : Thrown).
Arguments Ok {A} _.
Arguments Throw {A} _.

(** [.replace(/^github:/i, '')] *)
Definition dropScheme (s : string) : string :=
  default s (stripPrefixCI "github:" s).

(** [.replace(/^github:(\/\/)?/i, '')] *)
Definition dropSchemeSlashes (s : string) : string :=
  match stripPrefixCI "github:" s with
  | Some rest => default rest (stripPrefixCI "//" rest)
  | None => s
  end.

Definition getOfficialSource (projectSlugs : gmap string Project)
           (slug : string) (requestedBranch : option string) : Result Source :=
  match projectSlugs !! slug with
  | None => Throw (UnknownKey slug)
  | Some project =>
      let parts := split "/" (dropScheme (src project)) in
      Ok {| user := parts !! 0%nat;
            repo := parts !! 1%nat;
            branch := if truthy requestedBranch then requestedBranch
                      else parts !! 2%nat |}
  end.

Definition getSource (projectSlugs : gmap string Project) (slug : string)
           (requestedSource osdBranch : option string) : Result Source :=
  match projectSlugs !! slug with
  | None => Throw (UnknownKey slug)
  | Some project =>
      let source :=
        match requestedSource with
        | Some text => Some (dropSchemeSlashes (trim text))
        | None => None
        end in
      if truthy source then
        let parts := split "/" (default EmptyString source) in
        let user := parts !! 0%nat in
        let repo := parts !! 1%nat in
        let branch := parts !! 2%nat in
        if truthy user && truthy repo && truthy branch then
          Ok {| user := user; repo := repo; branch := branch |}
        else if truthy user && isUndefined repo && isUndefined branch then
          getOfficialSource projectSlugs slug branch
        else Throw (NoSourceFound (name project) requestedSource osdBranch)
      else if truthy osdBranch then getOfficialSource projectSlugs slug osdBranch
      else getOfficialSource projectSlugs slug None
  end.

(** *** [configureDashboards], on the content of
    [config/opensearch_dashboards.yml] *)

Definition linesToDelete (opts : Options) : list string :=
  [ "server.host"; "server.port"; "opensearch.ssl.verificationMode";
    "opensearch.ignoreVersionMismatch"; "savedObjects.maxImportPayloadBytes";
    "server.maxPayloadBytes"; "logging.json";
    "data.search.aggs.shardDelay.enabled"; "csp.warnLegacyBrowsers";
    "opensearch.hosts"; "opensearch.username"; "opensearch.password" ]
  ++ (if security opts then [] else ["opensearch_security."]).

Definition configParams (opts : Options) : list string :=
  [ "server.host: " +:+ dashboardsHost opts;
    "server.port: " +:+ dashboardsPort opts;
    "opensearch.ssl.verificationMode: none";
    "opensearch.ignoreVersionMismatch: true";
    "savedObjects.maxImportPayloadBytes: 10485760";
    "server.maxPayloadBytes: 1759977";
    "logging.json: false";
    "data.search.aggs.shardDelay.enabled: true";
    "csp.warnLegacyBrowsers: false" ]
  ++ (if security opts then
        [ "opensearch.hosts: [" +:+ dq +:+ "https://" +:+ opensearchHost opts
            +:+ ":" +:+ opensearchPort opts +:+ dq +:+ "]";
          "opensearch.username: " +:+ dq +:+ username opts +:+ dq;
          "opensearch.password: " +:+ dq +:+ password opts +:+ dq ]
      else
        [ "opensearch.hosts: [" +:+ dq +:+ "http://" +:+ opensearchHost opts
            +:+ ":" +:+ opensearchPort opts +:+ dq +:+ "]" ]).

Definition configureDashboards (opts : Options) (content : string) : string :=
  _appendToFile (configParams opts) (_deleteFromFile (linesToDelete opts) content).

(** *** [checkDashboardsHealth] *)

Definition statusRequest (opts : Options) : Request :=
  {| url := "http://" +:+ dashboardsHost opts +:+ ":" +:+ dashboardsPort opts
            +:+ "/api/status";
     basicAuth := if security opts
                  then Some (username opts +:+ ":" +:+ password opts)
                  else None;
     verifiesPeer := true |}.

Definition checkDashboardsHealth (opts : Options) (net : Request -> Reply)
  : CheckResult :=
  match net (statusRequest opts) with
  | NetworkError => CUndefined
  | HttpReply _ contentType body =>
      match contentType with
      | None => CUndefined
      | Some text =>
          if negb (includes text "application/json") then CUndefined
          else match body with
               | None => CUndefined
               | Some json =>
                   if isText "green"
                        (prop "state" (prop "overall" (prop "status" (Some json))))
                   then CTrue else CFalse
               end
      end
  end.

(** *** [runDashboards] *)

Definition runDashboards (win32 : bool) (childPid : Z)
           (env : nat -> Tick (Request -> Reply)) (fuel : nat)
           (folder : string) (timeoutSeconds : Z) (opts : Options)
           (w : World) : Outcome * World :=
  let '(spawnCmd, spawnArgs) :=
    if isVersionJs (dashboardsVersion opts) || build opts then
      (pathJoin (pathJoin folder "bin")
                (if win32 then "opensearch-dashboards.bat"
                 else "opensearch-dashboards"), [])
    else ("yarn", ["start"; "--no-base-path"]) in
  let '(child, w0) := spawnPiped spawnCmd spawnArgs childPid w in
  superviseLoop (checkDashboardsHealth opts) env fuel 0 (now w0)
                timeoutSeconds child false w0.

(** *** [downloadDashboards] *)

Definition dashboardsUrl (m : Machine) (version : string) : string :=
  if fromReleaseBundle version then
    "https://artifacts.opensearch.org/releases/bundle/opensearch-dashboards/"
    +:+ version +:+ "/opensearch-dashboards-" +:+ version +:+ "-"
    +:+ PLATFORM m +:+ "-" +:+ ARCH m +:+ "." +:+ EXTENSION m
  else
    "https://ci.opensearch.org/ci/dbc/distribution-build-opensearch-dashboards/"
    +:+ version +:+ "/latest/" +:+ PLATFORM m +:+ "/" +:+ ARCH m +:+ "/"
    +:+ TYPE m +:+ "/dist/opensearch-dashboards/opensearch-dashboards-"
    +:+ version +:+ "-" +:+ PLATFORM m +:+ "-" +:+ ARCH m +:+ "."
    +:+ EXTENSION m.

Definition downloadDashboards (m : Machine) (net : string -> Exchange)
           (newURL : string -> string -> string) (fuel : nat)
           (version : string) (refresh : bool) (fs : gmap string string)
  : Settled * list (gmap string string) :=
  let dest :=
    pathJoin (tmpDir m) ("dashboards-" +:+ version +:+ "." +:+ EXTENSION m) in
  if negb refresh && existsIn fs dest then (Resolved dest, [])
  else _download net newURL fuel (dashboardsUrl m version) dest fs.

(** *** The folder that [prepareDashboards] prepares *)

(** What [/[^a-z0-9.\-]/i] does not match. *)
Definition isNameChar (c : ascii) : bool :=
  let n := nat_of_ascii c in
  (Nat.leb 97 n && Nat.leb n 122) || (Nat.leb 65 n && Nat.leb n 90)
  || is_digit c || Ascii.eqb c "." || Ascii.eqb c "-".

(** [.replace(/[^a-z0-9.\-]+/ig, '-')]; [inRun] tells that the run of
    characters being replaced has begun. *)
Fixpoint dashRuns (inRun : bool) (s : string) : string :=
  match s with
  | EmptyString => EmptyString
  | String c s' =>
      if isNameChar c then String c (dashRuns false s')
      else if inRun then dashRuns true s'
      else String "-" (dashRuns true s')
  end.

(** [toLowerCase] on a text whose letters are those of ASCII, as the
    texts that [dashRuns] returns are. *)
Fixpoint toLowerCase (s : string) : string :=
  match s with
  | EmptyString => EmptyString
  | String c s' => String (lower c) (toLowerCase s')
  end.

Definition dirSuffix (source : string) : string :=
  toLowerCase (dashRuns false (dropSchemeSlashes source)).

(** The constant [osdDir] of [prepareDashboards]; [None] when the
    function returns before it gets there.  [resolve] is [path.resolve]. *)
Definition osdDir (existsSync : string -> bool) (resolve : string -> string)
           (opts : Options) : option string :=
  let tested := default "undefined" (dashboardsVersion opts) in
  if isVersion tested then
    Some (pathJoin (destination opts) ("Dashboards-v" +:+ tested))
  else if isGitHubSource tested then
    Some (pathJoin (destination opts) ("Dashboards-" +:+ dirSuffix tested))
  else
    match dashboardsVersion opts with
    | Some directory =>
        if existsSync directory then
          let useExisting := resolve directory in
          if truthy (Some useExisting) && negb (build opts) then Some useExisting
          else Some (pathJoin (destination opts) "Dashboards-undefined")
        else None
    | None => None
    end.

(** *** The sources that [cloneDashboards] clones from *)

(** [/^\d+\.(x|\d+)$/] *)
Definition isNumericBranch (branch : string) : bool :=
  match digits1 branch with
  | None => false
  | Some r1 =>
      match dot r1 with
      | None => false
      | Some r2 =>
          String.eqb r2 "x"
          || match digits1 r2 with
             | Some EmptyString => true
             | _ => false
             end
      end
  end.

(** An entry of [dashboardsPlugins] with what [opts] says of it:
    [opts[optionName] === true] and [opts[optionSource]]. *)
Record PluginChoice := {
  pluginSlug : string;
  wanted : bool;
  requestedSource : option string
}.

(** The sources of the [git clone] commands of [cloneDashboards], in
    order: Dashboards itself, then every plugin that is wanted.  Every
    clone is taken to succeed; the first source that cannot be resolved
    ends the list with its error. *)
Fixpoint pluginSources (projectSlugs : gmap string Project)
         (dashboardsBranch : option string) (plugins : list PluginChoice)
  : list (string * Source) * option Thrown :=
  match plugins with
  | [] => ([], None)
  | choice :: rest =>
      if wanted choice then
        match getSource projectSlugs (pluginSlug choice) (requestedSource choice)
                        dashboardsBranch with
        | Ok source =>
            let '(cloned, error) := pluginSources projectSlugs dashboardsBranch rest in
            ((pluginSlug choice, source) :: cloned, error)
        | Throw error => ([], Some error)
        end
      else pluginSources projectSlugs dashboardsBranch rest
  end.

Definition cloneSources (projectSlugs : gmap string Project)
           (plugins : list PluginChoice) (source : string)
  : list (string * Source) * option Thrown :=
  match getSource projectSlugs "dashboards" (Some source) None with
  | Throw error => ([], Some error)
  | Ok dashboards =>
      let dashboardsBranch :=
        if isNumericBranch (default "undefined" (branch dashboards))
        then branch dashboards else None in
      let '(cloned, error) := pluginSources projectSlugs dashboardsBranch plugins in
      (("dashboards", dashboards) :: cloned, error)
  end.

End Dashboards.

(** ** lib/opensearch.js *)
Module OpenSearch.
Import JsString Utils Options Http Subprocess Supervisor.

(** *** [configureOpenSearch], on the content of [config/opensearch.yml]

    [Installation] gathers what the function reads from the unpacked
    release: which plugin directories exist, and [os.tmpdir()].  The
    certificate paths are the ones [configureOpenSearchCerts] returns,
    relative to the [config] directory.  What the function writes
    elsewhere (certificates, [internal_users.yml], the security
    [config.yml], the performance analyzer's properties) does not reach
    [opensearch.yml] and is left out. *)

Record Installation := {
  hasSecurity : bool;
  hasIndexManagement : bool;
  hasAlerting : bool;
  hasSql : bool;
  tmpdir : string
}.

Definition nodeCert : string := "config/certs/node.pem".
Definition nodeKey : string := "config/certs/node-key.pem".
Definition rooCACert : string := "config/certs/root-ca.pem".
Definition adminCertSubject : string :=
  "C=US,ST=WASHINGTON,L=SEATTLE,O=ORG,OU=UNIT,CN=A".
Definition nodeCertSubject : string :=
  "C=US,ST=WASHINGTON,L=SEATTLE,O=ORG,OU=UNIT,CN=N".

Definition deletedKeys : list string :=
  [ "network.host"; "discovery.type";
    "cluster.routing.allocation.disk.threshold_enabled" ].

Definition securityParams (opts : Options) : list string :=
  [ "plugins.security.ssl.transport.pemcert_filepath: " +:+ nodeCert;
    "plugins.security.ssl.transport.pemkey_filepath: " +:+ nodeKey;
    "plugins.security.ssl.transport.pemtrustedcas_filepath: " +:+ rooCACert;
    "plugins.security.ssl.transport.enforce_hostname_verification: false";
    "plugins.security.ssl.http.enabled: true";
    "plugins.security.ssl.http.pemcert_filepath: " +:+ nodeCert;
    "plugins.security.ssl.http.pemkey_filepath: " +:+ nodeKey;
    "plugins.security.ssl.http.pemtrustedcas_filepath: " +:+ rooCACert;
    "plugins.security.allow_default_init_securityindex: true";
    "plugins.security.authcz.admin_dn:";
    "  - '" +:+ adminCertSubject +:+ "'";
    "plugins.security.nodes_dn:";
    "  - '" +:+ nodeCertSubject +:+ "'";
    "plugins.security.audit.type: internal_opensearch";
    "plugins.security.enable_snapshot_restore_privilege: true";
    "plugins.security.check_snapshot_restore_write_privileges: true";
    "plugins.security.restapi.roles_enabled: [" +:+ dq +:+ "all_access" +:+ dq
      +:+ ", " +:+ dq +:+ "security_rest_api_access" +:+ dq +:+ "]" ]
  ++ (if security opts then [] else ["plugins.security.disabled: true"]).

Definition configParams (inst : Installation) (opts : Options) : list string :=
  [ "network.host: " +:+ opensearchHost opts;
    "http.port: " +:+ opensearchPort opts;
    "discovery.type: single-node";
    "cluster.routing.allocation.disk.threshold_enabled: false" ]
  ++ (if hasSecurity inst then securityParams opts else [])
  ++ (if hasIndexManagement inst then ["path.repo: [" +:+ tmpdir inst +:+ "]"]
      else [])
  ++ (if hasAlerting inst
      then ["plugins.destination.host.deny_list: [" +:+ dq +:+ "10.0.0.0/8" +:+ dq
              +:+ ", " +:+ dq +:+ "127.0.0.1" +:+ dq +:+ "]"]
      else [])
  ++ (if hasSql inst then ["script.context.field.max_compilations_rate: 1000/1m"]
      else []).

Definition configureOpenSearch (inst : Installation) (opts : Options)
           (content : string) : string :=
  _appendToFile (configParams inst opts) (_deleteFromFile deletedKeys content).

(** *** [checkOpenSearchHealth] *)

Definition healthRequest (opts : Options) : Request :=
  if security opts then
    {| url := "https://" +:+ opensearchHost opts +:+ ":"
              +:+ opensearchPort opts +:+ "/_cluster/health";
       basicAuth := Some (username opts +:+ ":" +:+ password opts);
       verifiesPeer := false |}
  else
    {| url := "http://" +:+ opensearchHost opts +:+ ":"
              +:+ opensearchPort opts +:+ "/_cluster/health";
       basicAuth := None;
       verifiesPeer := true |}.

(** [['green', 'yellow'].includes(status)], then the two returns. *)
Definition verdict (status : option Json) : CheckResult :=
  if isText "green" status || isText "yellow" status then CTrue else CFalse.

Definition checkOpenSearchHealth (opts : Options) (net : Request -> Reply)
  : CheckResult :=
  if security opts then
    (* node:https [get]; the promise is settled from the listeners *)
    match net (healthRequest opts) with
    | NetworkError => CUndefined
    | HttpReply statusCode contentType body =>
        if negb (statusCode =? 200)%Z then CUndefined
        else match contentType with
             | None => CUndefined
             | Some text =>
                 if negb (includes text "application/json") then CUndefined
                 else match body with
                      | None => Raised   (* JSON.parse throws in the 'end' listener *)
                      | Some json => verdict (prop "status" (Some json))
                      end
             end
    end
  else
    (* fetch *)
    match net (healthRequest opts) with
    | NetworkError => CUndefined
    | HttpReply _ contentType body =>
        match contentType with
        | None => CUndefined
        | Some text =>
            if negb (includes text "application/json") then CUndefined
            else match body with
                 | None => CUndefined
                 | Some json => verdict (prop "status" (Some json))
                 end
        end
    end.

(** *** [runOpenSearch] *)

Definition runOpenSearch (win32 : bool) (childPid : Z)
           (env : nat -> Tick (Request -> Reply)) (fuel : nat)
           (folder : string) (timeoutSeconds : Z) (opts : Options)
           (w : World) : Outcome * World :=
  let executable := if win32 then "opensearch.bat" else "opensearch" in
  let '(child, w0) :=
    spawnPiped (pathJoin (pathJoin folder "bin") executable) [] childPid w in
  superviseLoop (checkOpenSearchHealth opts) env fuel 0 (now w0)
                timeoutSeconds child false w0.

(** *** [prepareOpenSearch]

    The steps the function takes are recorded in order; whether the
    download and the extraction succeed is given from outside. *)

Inductive Step :=
| Warning (message : string)
| Download (version : string) (refresh : bool)
| Unarchive (archive dest : string)
| Configure (folder : string).

Inductive Prepared :=
| Returned (osDir : option string)   (* [None] is [undefined] *)
| Threw (message : string).

Record Supplies := {
  cacheDir : string;      (* [tmpDir] of config.js *)
  extension : string;     (* [EXTENSION] of config.js *)
  downloads : bool;       (* the download promise resolves *)
  unpacks : bool          (* [_unarchive] does not throw *)
}.

Definition prepareOpenSearch (sup : Supplies) (opts : Options)
  : Prepared * list Step :=
  if negb (isVersionJs (opensearchVersion opts)) then
    (Returned None,
     [Warning "Skipped preparing OpenSearch as no version was specified!"])
  else
    let version := default "undefined" (opensearchVersion opts) in
    let osDir := pathJoin (destination opts) ("OpenSearch-v" +:+ version) in
    let archive :=
      pathJoin (cacheDir sup)
               ("opensearch-" +:+ version +:+ "." +:+ extension sup) in
    let fetched := [Download version (refreshDownloads opts)] in
    if negb (downloads sup) then (Threw "download failed", fetched)
    else if negb (unpacks sup) then
      (Threw "The downloaded OpenSearch artifact appears to have been corrupted. Re-run the program with '--refresh-downloads' to download a fresh copy.",
       fetched ++ [Unarchive archive osDir])
    else
      (Returned (Some osDir),
       fetched ++ [Unarchive archive osDir; Configure osDir]).

(** *** [downloadOpenSearch] *)

Definition openSearchUrl (m : Machine) (version : string) : string :=
  if fromReleaseBundle version then
    "https://artifacts.opensearch.org/releases/bundle/opensearch/"
    +:+ version +:+ "/opensearch-" +:+ version +:+ "-"
    +:+ PLATFORM m +:+ "-" +:+ ARCH m +:+ "." +:+ EXTENSION m
  else
    "https://ci.opensearch.org/ci/dbc/distribution-build-opensearch/"
    +:+ version +:+ "/latest/" +:+ PLATFORM m +:+ "/" +:+ ARCH m +:+ "/"
    +:+ TYPE m +:+ "/dist/opensearch/opensearch-"
    +:+ version +:+ "-" +:+ PLATFORM m +:+ "-" +:+ ARCH m +:+ "."
    +:+ EXTENSION m.

Definition downloadOpenSearch (m : Machine) (net : string -> Exchange)
           (newURL : string -> string -> string) (fuel : nat)
           (version : string) (refresh : bool) (fs : gmap string string)
  : Settled * list (gmap string string) :=
  let dest :=
    pathJoin (tmpDir m) ("opensearch-" +:+ version +:+ "." +:+ EXTENSION m) in
  if negb refresh && existsIn fs dest then (Resolved dest, [])
  else _download net newURL fuel (openSearchUrl m version) dest fs.

End OpenSearch.

(** ** cli.js: option parsers *)
Module Cli.
Import JsString Utils.

Inductive Parsed :=
| Accepted (value : string)
| InvalidArgumentError (message : string).

Definition fullVersion (input : string) : Parsed :=
  let value := trim input in
  if isVersion value then Accepted value
  else InvalidArgumentError
         "The value needs to be a complete version (e.g. 2.15.0).".

(** [existsSync] is the file system's answer at the time of the call. *)
Definition gitOrVersionOrDirectory (existsSync : string -> bool)
           (input : string) : Parsed :=
  let value := trim input in
  if isVersion value then Accepted value
  else if isGitHubSource value then Accepted value
  else if existsSync value then Accepted value
  else if includes value ":" || includes value "/" then
    InvalidArgumentError
      "The value needs to be a complete version (e.g. 2.15.0) or in the form of github:user/repo/branch."
  else Accepted ("github://" +:+ value).

End Cli.

(** ** cli.js: [run], from the two folders that the prepare functions
    return *)
Module Launcher.
Import JsString Utils Options Http Subprocess Supervisor.

Inductive Finished :=
| Installed (osChild osdChild : option ChildProcess)  (* [run] returned *)
| RunThrew (message : string)                         (* [run] threw a text *)
| RunRaised                                           (* an exception went through *)
| RunPending.                                         (* a loop ran out of fuel *)

(** The children spawned, oldest first. *)
Fixpoint spawns (es : list Event) : list ChildProcess :=
  match es with
  | [] => []
  | Spawn child _ _ :: rest => child :: spawns rest
  | _ :: rest => spawns rest
  end.

(** [if (isVersion(opts.dashboardsVersion)) opts.build = false] *)
Definition releaseIsNotBuilt (o : Options) : Options :=
  {| destination := destination o; opensearchVersion := opensearchVersion o;
     dashboardsVersion := dashboardsVersion o;
     refreshDownloads := refreshDownloads o;
     opensearchHost := opensearchHost o; opensearchPort := opensearchPort o;
     dashboardsHost := dashboardsHost o; dashboardsPort := dashboardsPort o;
     username := username o; password := password o;
     security := security o;
     build := if isVersionJs (dashboardsVersion o) then false else build o |}.

(** A started service, or the way [run] ends without it. *)
Definition awaited (message : string) (result : Outcome * World)
  : (option ChildProcess + Finished) * World :=
  match result with
  | (Started child, w) => (inl (Some child), w)
  | (Failed, w) => (inr (RunThrew message), w)
  | (Aborted, w) => (inr RunRaised, w)
  | (Spinning, w) => (inr RunPending, w)
  end.

Definition run (win32 : bool) (kernel : Kernel) (osPid osdPid : Z)
           (osEnv osdEnv : nat -> Tick (Request -> Reply)) (fuel : nat)
           (osDir osdDir : option string) (options : Options) (w : World)
  : Finished * World :=
  let opts := releaseIsNotBuilt options in
  let '(os, w1) :=
    if truthy osDir then
      awaited "Failed to run OpenSearch"
              (OpenSearch.runOpenSearch win32 osPid osEnv fuel
                                        (default EmptyString osDir) 180 opts w)
    else (inl None, w) in
  match os with
  | inr ended => (ended, w1)
  | inl osChild =>
      let '(osd, w2) :=
        if truthy osdDir then
          if truthy osDir && negb (bool_decide (is_Some osChild)) then
            (inl None, w1)
          else
            awaited "Failed to run OpenSearch Dashboards"
                    (Dashboards.runDashboards win32 osdPid osdEnv fuel
                                              (default EmptyString osdDir)
                                              (if build opts then 1800 else 600)
                                              opts w1)
        else (inl None, w1) in
      match osd with
      | inr ended => (ended, w2)
      | inl osdChild =>
          match killSubprocesses kernel w2 with
          | (inl _, w3) => (Installed osChild osdChild, w3)
          | (inr _, w3) => (RunRaised, w3)
          end
      end
  end.

End Launcher.

(** ** Reference notions

    Definitions that follow the words of the specification, to compare
    the code with. *)
Module Reference.
Import JsString.

Fixpoint allDigits (s : string) : bool :=
  match s with
  | EmptyString => true
  | String c s' => is_digit c && allDigits s'
  end.

(** A non-empty run of decimal digits: what [\d+] matches in full. *)
Definition Digits (s : string) : Prop :=
  s <> EmptyString /\ allDigits s = true.

(** A complete release version: three runs of digits separated by dots,
    and nothing else. *)
Definition ThreePartVersion (s : string) : Prop :=
  exists a b c : string,
    Digits a /\ Digits b /\ Digits c /\ s = a +:+ "." +:+ b +:+ "." +:+ c.

(** A text without line terminators. *)
Fixpoint singleLine (s : string) : bool :=
  match s with
  | EmptyString => true
  | String c s' => negb (Ascii.eqb c LF) && negb (Ascii.eqb c CR) && singleLine s'
  end.

(** The first [n] characters of a text. *)
Fixpoint firstChars (n : nat) (s : string) : string :=
  match n, s with
  | S n', String c s' => String c (firstChars n' s')
  | _, _ => EmptyString
  end.

(** How many lines of a file are exactly [line]. *)
Fixpoint countLine (line : string) (lines : list string) : nat :=
  match lines with
  | [] => O
  | l :: rest =>
      if String.eqb line l then S (countLine line rest) else countLine line rest
  end.

(** The option values that end up in a configuration line hold no line
    terminator. *)
Definition SingleLineOptions (opts : Options.Options) : Prop :=
  singleLine (Options.dashboardsHost opts) = true
  /\ singleLine (Options.dashboardsPort opts) = true
  /\ singleLine (Options.opensearchHost opts) = true
  /\ singleLine (Options.opensearchPort opts) = true
  /\ singleLine (Options.username opts) = true
  /\ singleLine (Options.password opts) = true.

(** In state [s] the file at [dest] is what it was in [fs], or is absent. *)
Definition Untouched (dest : string) (fs s : gmap string string) : Prop :=
  s !! dest = fs !! dest \/ s !! dest = None.

End Reference.

(** ** Concrete inputs used by the examples *)
Module Samples.
Import JsString Utils Options OpenSearch.

Definition sampleOptions : Options :=
  {| destination := "/srv/osd"; opensearchVersion := None;
     dashboardsVersion := Some "github://2.x"; refreshDownloads := false;
     opensearchHost := "127.0.0.1"; opensearchPort := "9200";
     dashboardsHost := "0.0.0.0"; dashboardsPort := "5601";
     username := "admin"; password := "secret";
     security := true; build := true |}.

Definition sampleSupplies : Supplies :=
  {| cacheDir := "/home/me/.osd-launcher"; extension := "tar.gz";
     downloads := true; unpacks := true |}.

Definition withOpenSearchVersion (v : option string) (o : Options) : Options :=
  {| destination := destination o; opensearchVersion := v;
     dashboardsVersion := dashboardsVersion o;
     refreshDownloads := refreshDownloads o;
     opensearchHost := opensearchHost o; opensearchPort := opensearchPort o;
     dashboardsHost := dashboardsHost o; dashboardsPort := dashboardsPort o;
     username := username o; password := password o;
     security := security o; build := build o |}.

Definition idle : Subprocess.World :=
  {| Subprocess.now := 0; Subprocess.nextHandle := 0;
     Subprocess.subprocesses := []; Subprocess.timers := [];
     Subprocess.events := [] |}.

Definition child4242 : Subprocess.ChildProcess :=
  {| Subprocess.handle := 0; Subprocess.pid := 4242 |}.

(** A kernel under which pid 4242 belongs to somebody else: probing it is
    refused with EPERM, and so is signalling it. *)
Definition foreignKernel : Subprocess.Kernel :=
  fun target sig => Some Subprocess.EPERM.

(** A kernel under which every process is gone. *)
Definition emptyKernel : Subprocess.Kernel :=
  fun target sig => Some Subprocess.ESRCH.

(** A kernel that delivers every signal. *)
Definition obligingKernel : Subprocess.Kernel :=
  fun target sig => None.

Definition unreachable : Http.Request -> Http.Reply :=
  fun _ => Http.NetworkError.

(** A search engine that answers [/_cluster/health] with the given status. *)
Definition answering (status : string) : Http.Request -> Http.Reply :=
  fun _ =>
    Http.HttpReply 200 (Some "application/json; charset=UTF-8")
                   (Some (Http.JObject [("status", Http.JString status)])).

Definition tick (reply : Http.Request -> Http.Reply) (ms : Z)
  : Supervisor.Tick (Http.Request -> Http.Reply) :=
  {| Supervisor.answer := reply; Supervisor.latency := ms;
     Supervisor.closeInProbe := false; Supervisor.closeInWait := false;
     Supervisor.lateness := 0 |}.

(** The same tick, with the child closing during the wait that follows. *)
Definition thenCloses (t : Supervisor.Tick (Http.Request -> Http.Reply))
  : Supervisor.Tick (Http.Request -> Http.Reply) :=
  {| Supervisor.answer := Supervisor.answer t;
     Supervisor.latency := Supervisor.latency t;
     Supervisor.closeInProbe := Supervisor.closeInProbe t;
     Supervisor.closeInWait := true;
     Supervisor.lateness := Supervisor.lateness t |}.

Definition redRedGreen (k : nat) : Supervisor.Tick (Http.Request -> Http.Reply) :=
  match k with
  | 0 | 1 => tick (answering "red") 40
  | _ => tick (answering "green") 40
  end.

Definition alwaysRefused (k : nat) : Supervisor.Tick (Http.Request -> Http.Reply) :=
  tick unreachable 0.

Definition slowFourthProbe (k : nat) : Supervisor.Tick (Http.Request -> Http.Reply) :=
  match k with
  | 3 => tick unreachable 3000
  | _ => tick unreachable 0
  end.

Definition closesWhileWaiting (k : nat) : Supervisor.Tick (Http.Request -> Http.Reply) :=
  match k with
  | 0 => thenCloses (tick unreachable 0)
  | _ => tick unreachable 0
  end.

Definition closesThenAnswers (k : nat) : Supervisor.Tick (Http.Request -> Http.Reply) :=
  match k with
  | 0 => thenCloses (tick unreachable 0)
  | _ => tick (answering "green") 0
  end.

Definition releaseOptions : Options :=
  withOpenSearchVersion (Some "2.13.0") sampleOptions.

(** A server that sends two chunks and whose second write fails. *)
Definition failingDisk (url : string) : Utils.Exchange :=
  Utils.Response 200 "OK" None ["PK-first-half-"; "second-half"]
                 (Utils.StreamError "ENOSPC: no space left on device").

(** A server that redirects once and then delivers. *)
Definition mirror (url : string) : Utils.Exchange :=
  if String.eqb url "https://ci.example/os.tgz"
  then Utils.Response 302 "Found" (Some "https://cdn.example/os.tgz") []
                      (Utils.Finish true)
  else Utils.Response 200 "OK" None ["PK-first-half-"; "second-half"]
                      (Utils.Finish true).

Definition absolute (location base : string) : string := location.

Definition staleCache : gmap string string :=
  {[ "/home/me/.osd-launcher/os.tgz" := "old archive" ]}.

Definition withSecurity (b : bool) (o : Options) : Options :=
  {| destination := destination o; opensearchVersion := opensearchVersion o;
     dashboardsVersion := dashboardsVersion o;
     refreshDownloads := refreshDownloads o;
     opensearchHost := opensearchHost o; opensearchPort := opensearchPort o;
     dashboardsHost := dashboardsHost o; dashboardsPort := dashboardsPort o;
     username := username o; password := password o;
     security := b; build := build o |}.

Definition plainOptions : Options := withSecurity false releaseOptions.

(** Dashboards while it starts: status 503 and a JSON body that says red. *)
Definition startingDashboards : Http.Request -> Http.Reply :=
  fun _ =>
    Http.HttpReply 503 (Some "application/json; charset=utf-8")
      (Some (Http.JObject
               [("status",
                 Http.JObject
                   [("overall",
                     Http.JObject [("state", Http.JString "red")])])])).

(** Dashboards once it is up. *)
Definition readyDashboards : Http.Request -> Http.Reply :=
  fun _ =>
    Http.HttpReply 200 (Some "application/json; charset=utf-8")
      (Some (Http.JObject
               [("status",
                 Http.JObject
                   [("overall",
                     Http.JObject [("state", Http.JString "green")])])])).

(** A proxy that answers 503 with a JSON body whose status is green. *)
Definition greenBehind503 : Http.Request -> Http.Reply :=
  fun _ =>
    Http.HttpReply 503 (Some "application/json")
                   (Some (Http.JObject [("status", Http.JString "green")])).

Definition mapsProject : Dashboards.Project :=
  {| Dashboards.slug := "maps"; Dashboards.name := "Maps";
     Dashboards.src := "github:opensearch-project/dashboards-maps/main";
     Dashboards.releaseName := Some "customImportMapDashboards" |}.

Definition sampleProjects : gmap string Dashboards.Project :=
  {[ "maps" := mapsProject ]}.

(** A release without plugins. *)
Definition bareInstallation : OpenSearch.Installation :=
  {| OpenSearch.hasSecurity := false; OpenSearch.hasIndexManagement := false;
     OpenSearch.hasAlerting := false; OpenSearch.hasSql := false;
     OpenSearch.tmpdir := "/tmp" |}.

(** The start of the [opensearch.yml] that a release ships. *)
Definition shippedYml : string :=
  Utils.writeLines
    [ "#cluster.name: my-application";
      "#network.host: 192.168.0.1";
      "#http.port: 9200" ].

(** [toUpperCase] on the letters of ASCII. *)
Definition asciiUpper (c : ascii) : string :=
  let n := nat_of_ascii c in
  String (if Nat.leb 97 n && Nat.leb n 122 then ascii_of_nat (n - 32) else c)
         EmptyString.

(** A command that fails twice and then succeeds. *)
Definition thirdTimeLucky (n : nat) : option Z :=
  if Nat.eqb n 2 then Some 0%Z else Some 1%Z.

Definition linuxBox : Machine :=
  {| homedir := "/home/me"; platform := "linux"; arch := "x64" |}.

(** A server that delivers every URL in two chunks. *)
Definition delivering (url : string) : Utils.Exchange :=
  Utils.Response 200 "OK" None ["PK-first-half-"; "second-half"]
                 (Utils.Finish true).

Definition dashboardsProject : Dashboards.Project :=
  {| Dashboards.slug := "dashboards"; Dashboards.name := "Dashboards";
     Dashboards.src := "github:opensearch-project/OpenSearch-Dashboards/main";
     Dashboards.releaseName := None |}.

Definition officialProjects : gmap string Dashboards.Project :=
  {[ "dashboards" := dashboardsProject; "maps" := mapsProject ]}.

(** A search engine that is green from the first check on. *)
Definition greenAtOnce (k : nat) : Supervisor.Tick (Http.Request -> Http.Reply) :=
  tick (answering "green") 40.

(** Dashboards that is ready from the first check on. *)
Definition dashboardsUp (k : nat) : Supervisor.Tick (Http.Request -> Http.Reply) :=
  tick readyDashboards 40.

End Samples.

(* ===================================================================== *)
(** * Properties *)
(* ===================================================================== *)

(* stdpp freezes [String.append]; the proofs below compute with it. *)
#[local] Arguments String.append !_ _ / : simpl nomatch.

Section StringFacts.
Import JsString.

Lemma startsWith_app (k r : string) : startsWith (k +:+ r) k = true.
Proof.
  induction k as [|c k IH]; simpl; [reflexivity|].
  rewrite Ascii.eqb_refl. exact IH.
Qed.

Lemma append_nil_r (s : string) : s +:+ EmptyString = s.
Proof. induction s as [|c s IH]; simpl; [reflexivity | now rewrite IH]. Qed.

Lemma append_assoc (a b c : string) : (a +:+ b) +:+ c = a +:+ (b +:+ c).
Proof. induction a as [|x a IH]; simpl; [reflexivity | now rewrite IH]. Qed.

End StringFacts.

(** ** Release versions *)
Section VersionFacts.
Import JsString Utils Reference.

Example isVersion_release : isVersion "2.13.0" = true.
Proof. reflexivity. Qed.

Example isVersion_two_parts : isVersion "2.13" = false.
Proof. reflexivity. Qed.

Example isVersion_suffix : isVersion "2.13.0-rc1" = false.
Proof. reflexivity. Qed.

Example isVersion_absent : isVersionJs None = false.
Proof. reflexivity. Qed.

Lemma dot_not_digit : is_digit "."%char = false.
Proof. reflexivity. Qed.

(** [skipDigits] removes a run of digits and stops at what follows. *)
Lemma skipDigits_split (s : string) :
  exists a, allDigits a = true /\ s = a +:+ skipDigits s.
Proof.
  induction s as [|c s [a [Ha Hs]]]; simpl.
  - exists EmptyString. split; reflexivity.
  - destruct (is_digit c) eqn:Hc.
    + exists (String c a). simpl. rewrite Hc, Ha. split; [reflexivity|].
      f_equal. exact Hs.
    + exists EmptyString. split; reflexivity.
Qed.

Lemma skipDigits_run (a r : string) :
  allDigits a = true ->
  skipDigits r = r ->
  skipDigits (a +:+ r) = r.
Proof.
  intros Ha Hr. induction a as [|c a IH]; simpl in *; [exact Hr|].
  apply andb_prop in Ha as [Hc Ha]. rewrite Hc. apply IH, Ha.
Qed.

Lemma digits1_split (s r : string) :
  digits1 s = Some r -> exists a, Digits a /\ s = a +:+ r.
Proof.
  destruct s as [|c s]; simpl; [discriminate|].
  destruct (is_digit c) eqn:Hc; [|discriminate].
  intros [= <-]. destruct (skipDigits_split s) as [a [Ha Hs]].
  exists (String c a). split.
  - split; [discriminate|]. simpl. rewrite Hc. exact Ha.
  - simpl. f_equal. exact Hs.
Qed.

Lemma digits1_run (a r : string) :
  Digits a -> skipDigits r = r -> digits1 (a +:+ r) = Some r.
Proof.
  intros [Hne Ha] Hr. destruct a as [|c a]; [contradiction|].
  simpl in *. apply andb_prop in Ha as [Hc Ha]. rewrite Hc.
  f_equal. apply skipDigits_run; assumption.
Qed.

Lemma dot_split (s r : string) : dot s = Some r -> s = "." +:+ r.
Proof.
  destruct s as [|c s]; simpl; [discriminate|].
  destruct (Ascii.eqb_spec c "."%char) as [->|]; [|discriminate].
  intros [= <-]. reflexivity.
Qed.

(** The matcher accepts exactly the complete release versions. *)
Lemma isVersion_iff (s : string) :
  isVersion s = true <-> ThreePartVersion s.
Proof.
  split.
  - unfold isVersion. intros H.
    destruct (digits1 s) as [r1|] eqn:H1; [|discriminate].
    destruct (dot r1) as [r2|] eqn:D1; [|discriminate].
    destruct (digits1 r2) as [r3|] eqn:H2; [|discriminate].
    destruct (dot r3) as [r4|] eqn:D2; [|discriminate].
    destruct (digits1 r4) as [[|? ?]|] eqn:H3; try discriminate.
    apply digits1_split in H1 as [a [Ha ->]].
    apply digits1_split in H2 as [b [Hb ->]].
    apply digits1_split in H3 as [c [Hc ->]].
    apply dot_split in D1 as ->. apply dot_split in D2 as ->.
    exists a, b, c. repeat split; try apply Ha; try apply Hb; try apply Hc.
    rewrite append_nil_r. reflexivity.
  - intros (a & b & c & Ha & Hb & Hc & ->). unfold isVersion.
    rewrite (digits1_run a); [|exact Ha|reflexivity]. simpl.
    rewrite (digits1_run b); [|exact Hb|reflexivity]. simpl.
    rewrite <- (append_nil_r c).
    rewrite (digits1_run c); [reflexivity|exact Hc|reflexivity].
Qed.

Lemma isVersionJs_iff (v : option string) :
  isVersionJs v = true <-> exists s, v = Some s /\ ThreePartVersion s.
Proof.
  destruct v as [s|]; simpl.
  - rewrite isVersion_iff. split; [eauto|]. intros (? & [= <-] & H). exact H.
  - split; [discriminate|]. intros (? & [=] & _).
Qed.

End VersionFacts.

(** ** The search engine is provisioned from a release only *)
Section ReleaseOnly.
Import JsString Utils Reference Options OpenSearch Cli Samples.

Example prepareOpenSearch_release :
  prepareOpenSearch sampleSupplies
                    (withOpenSearchVersion (Some "2.13.0") sampleOptions)
  = (Returned (Some "/srv/osd/OpenSearch-v2.13.0"),
     [ Download "2.13.0" false;
       Unarchive "/home/me/.osd-launcher/opensearch-2.13.0.tar.gz"
                 "/srv/osd/OpenSearch-v2.13.0";
       Configure "/srv/osd/OpenSearch-v2.13.0" ]).
Proof. reflexivity. Qed.

Example fullVersion_trims : fullVersion " 2.15.0 " = Accepted "2.15.0".
Proof. reflexivity. Qed.

(** C10.  The search engine can be provisioned from a released version
    only.  Whenever [opensearchVersion] is not a complete three-part
    version (the option may be absent), [prepareOpenSearch] returns
    [undefined] after a single warning: it neither downloads, nor unpacks,
    nor configures.  The command-line parser [fullVersion] rejects every
    argument whose trimmed text is not such a version, and what it accepts
    always is one.  The test both use accepts exactly the texts made of
    three dot-separated runs of digits. *)
Theorem opensearch_needs_release_version :
  (forall sup opts,
      isVersionJs (opensearchVersion opts) = false ->
      prepareOpenSearch sup opts
      = (Returned None,
         [Warning "Skipped preparing OpenSearch as no version was specified!"]))
  /\ (forall input,
         isVersion (trim input) = false ->
         exists message, fullVersion input = InvalidArgumentError message)
  /\ (forall input value,
         fullVersion input = Accepted value ->
         value = trim input /\ ThreePartVersion value)
  /\ (forall v,
         isVersionJs v = false <->
         ~ exists s, v = Some s /\ ThreePartVersion s).
Proof.
  split; [|split; [|split]].
  - intros sup opts H. unfold prepareOpenSearch. rewrite H. reflexivity.
  - intros input H. unfold fullVersion. rewrite H. eauto.
  - intros input value H. unfold fullVersion in H.
    destruct (isVersion (trim input)) eqn:E; [|discriminate].
    injection H as <-. split; [reflexivity|]. apply isVersion_iff, E.
  - intros v. split.
    + intros Hf Hex. apply isVersionJs_iff in Hex. congruence.
    + intros Hn. destruct (isVersionJs v) eqn:E; [|reflexivity].
      exfalso. apply Hn, isVersionJs_iff, E.
Qed.

Lemma opensearch_needs_release_version_witness :
  prepareOpenSearch sampleSupplies sampleOptions
  = (Returned None,
     [Warning "Skipped preparing OpenSearch as no version was specified!"])
  /\ (exists message, fullVersion "github://2.x" = InvalidArgumentError message)
  /\ ("2.15.0" = trim " 2.15.0 " /\ ThreePartVersion "2.15.0").
Proof.
  destruct opensearch_needs_release_version as (Hprep & Hrej & Hacc & _).
  split; [apply Hprep; reflexivity|].
  split; [apply Hrej; reflexivity|].
  apply Hacc. reflexivity.
Defined.

End ReleaseOnly.

(** ** The shutdown registry *)
Section ShutdownFacts.
Import Subprocess Samples.

Lemma signalled_app (a b : list Event) :
  signalled (a ++ b) = signalled a ++ signalled b.
Proof.
  induction a as [|e a IH]; simpl; [reflexivity|].
  destruct e; simpl; rewrite ?IH; reflexivity.
Qed.

Lemma processKill_run (kernel : Kernel) (target : Z) (sig : Signal) (w : World) :
  processKill kernel target sig w
  = (match kernel target sig with
     | None => inl tt
     | Some code => inr code
     end,
     emit (ProcessKill target sig (kernel target sig)) w).
Proof. unfold processKill. destruct (kernel target sig); reflexivity. Qed.

(** One turn of the loop never throws, leaves the array alone and asks
    for exactly one signal when the entry is not null. *)
Lemma killSubprocess_turn (kernel : Kernel) (entry : option ChildProcess)
      (w : World) :
  exists w',
    killSubprocess kernel entry w = (inl tt, w')
    /\ subprocesses w' = subprocesses w
    /\ signalled (events w')
       = signalled (events w)
         ++ match entry with
            | Some proc => [(- pid proc, SIGTERM)%Z]
            | None => []
            end
    /\ timers w'
       = timers w
         ++ match entry with
            | Some proc =>
                match kernel (- pid proc)%Z SIGTERM with
                | None => [(5000%Z, KillIfAlive proc)]
                | Some _ => []
                end
            | None => []
            end.
Proof.
  destruct entry as [proc|]; simpl.
  - unfold bind, tryCatch, act, processKill, setTimeout; simpl.
    destruct (kernel (- pid proc)%Z SIGTERM) as [code|] eqn:K; simpl.
    + destruct code; simpl; eexists; (split; [reflexivity|]); simpl;
        rewrite ?signalled_app, ?app_nil_r; simpl;
        rewrite ?signalled_app, ?app_nil_r; simpl; rewrite ?app_nil_r; auto.
    + eexists; (split; [reflexivity|]); simpl.
      rewrite !signalled_app; simpl. rewrite app_nil_r. auto.
  - exists w. unfold ret. rewrite !app_nil_r. auto.
Qed.

Lemma forOf_killSubprocess (kernel : Kernel) (l : list (option ChildProcess))
      (w : World) :
  exists w',
    forOf (killSubprocess kernel) l w = (inl tt, w')
    /\ subprocesses w' = subprocesses w
    /\ signalled (events w')
       = signalled (events w)
         ++ map (fun proc => (- pid proc, SIGTERM)%Z) (entries l).
Proof.
  revert w. induction l as [|entry l IH]; intros w.
  - exists w. simpl. unfold ret. rewrite app_nil_r. auto.
  - destruct (killSubprocess_turn kernel entry w) as (w1 & R1 & S1 & E1 & _).
    destruct (IH w1) as (w2 & R2 & S2 & E2).
    exists w2. simpl. unfold bind. rewrite R1, R2.
    split; [reflexivity|]. split; [congruence|].
    rewrite E2, E1, <- app_assoc. f_equal.
    destruct entry; reflexivity.
Qed.

Example killSubprocesses_gone :
  killSubprocesses emptyKernel (recordProcess child4242 idle)
  = (inl tt,
     {| now := 0; nextHandle := 0; subprocesses := [Some child4242];
        timers := [];
        events := [Unref child4242;
                   ProcessKill (-4242) SIGTERM (Some ESRCH)] |}).
Proof. reflexivity. Qed.

Example killSubprocesses_alive :
  killSubprocesses obligingKernel (recordProcess child4242 idle)
  = (inl tt,
     {| now := 0; nextHandle := 0; subprocesses := [Some child4242];
        timers := [(5000%Z, KillIfAlive child4242)];
        events := [Unref child4242; ProcessKill (-4242) SIGTERM None] |}).
Proof. reflexivity. Qed.

(** C4.  One call of [killSubprocesses] asks the kernel for a SIGTERM on
    the process group (the negated pid) of every entry of the registry, in
    order and whatever the kernel answers to the earlier ones; the call
    itself never throws; and on an empty registry it changes nothing: no
    signal, no timer, no output. *)
Theorem killSubprocesses_signals_all (kernel : Kernel) (w : World) :
  exists w',
    killSubprocesses kernel w = (inl tt, w')
    /\ signalled (events w')
       = signalled (events w)
         ++ map (fun proc => (- pid proc, SIGTERM)%Z) (entries (subprocesses w))
    /\ (subprocesses w = [] -> w' = w).
Proof.
  unfold killSubprocesses.
  destruct (forOf_killSubprocess kernel (subprocesses w) w) as (w' & R & _ & E).
  exists w'. split; [exact R|]. split; [exact E|].
  intros Hnil. rewrite Hnil in R. simpl in R. unfold ret in R. congruence.
Qed.

Lemma killSubprocesses_signals_all_witness :
  exists w',
    killSubprocesses emptyKernel idle = (inl tt, w')
    /\ signalled (events w')
       = signalled (events idle)
         ++ map (fun proc => (- pid proc, SIGTERM)%Z) (entries (subprocesses idle))
    /\ w' = idle.
Proof.
  destruct (killSubprocesses_signals_all emptyKernel idle) as (w' & R & E & Hnil).
  exists w'. split; [exact R|]. split; [exact E|]. apply Hnil. reflexivity.
Defined.

(** The liveness probe reports a process alive when the kernel accepts the
    zero signal and also when it refuses it with EPERM. *)
Lemma isProcessAlive_result (kernel : Kernel) (p : Z) (w : World) :
  fst (isProcessAlive kernel p w)
  = inl (if (p =? 0)%Z then true
         else match kernel p SIG0 with
              | None => true
              | Some code => errno_eqb code EPERM
              end).
Proof.
  unfold isProcessAlive. destruct (p =? 0)%Z; [reflexivity|].
  unfold tryCatch, bind, processKill, ret.
  destruct (kernel p SIG0); reflexivity.
Qed.

(** The claim, read on the code: a probe refused with EPERM would make
    the timer skip its SIGKILL.  It does not. *)
Lemma deferred_kill_despite_eperm :
  foreignKernel (pid child4242) SIG0 = Some EPERM
  /\ signalled (events (snd (fire foreignKernel (KillIfAlive child4242) idle)))
     = [(4242%Z, SIG0); ((-4242)%Z, SIGKILL)].
Proof. split; reflexivity. Qed.

(** C5, amended.  [killSubprocesses] arms the timer, with a delay of 5000
    ms, only for an entry whose SIGTERM the kernel accepted.  When the
    timer fires it probes the pid with signal 0 (unless the pid is 0) and
    then asks for SIGKILL on the process group exactly when the probe
    succeeded or was refused with EPERM; any other refusal, such as
    ESRCH, skips the SIGKILL. *)
Theorem deferred_kill_guard (kernel later : Kernel) (proc : ChildProcess)
        (w w1 : World) :
  timers (snd (killSubprocess kernel (Some proc) w))
  = timers w
    ++ match kernel (- pid proc)%Z SIGTERM with
       | None => [(5000%Z, KillIfAlive proc)]
       | Some _ => []
       end
  /\ signalled (events (snd (fire later (KillIfAlive proc) w1)))
     = signalled (events w1)
       ++ probeOf proc
       ++ (if (pid proc =? 0)%Z then [(- pid proc, SIGKILL)%Z]
           else match later (pid proc) SIG0 with
                | None => [(- pid proc, SIGKILL)%Z]
                | Some EPERM => [(- pid proc, SIGKILL)%Z]
                | Some _ => []
                end).
Proof.
  split.
  - destruct (killSubprocess_turn kernel (Some proc) w) as (w' & R & _ & _ & T).
    rewrite R. exact T.
  - unfold fire, isProcessAlive, probeOf, tryCatch, bind, ret.
    destruct (pid proc =? 0)%Z eqn:Z0.
    + rewrite processKill_run. simpl. rewrite signalled_app. reflexivity.
    + cbv beta. rewrite processKill_run.
      destruct (later (pid proc) SIG0) as [code|] eqn:P; simpl.
      * destruct code; simpl; rewrite ?processKill_run; simpl;
          rewrite !signalled_app; simpl; rewrite <- ?app_assoc; reflexivity.
      * rewrite processKill_run. simpl.
        rewrite !signalled_app; simpl. rewrite <- app_assoc. reflexivity.
Qed.

End ShutdownFacts.

(** ** The poll loop *)
Section PollLoopFacts.
Import Subprocess Http Supervisor.
Context {Answer : Type}.
Variable healthCheck : Answer -> CheckResult.
Variable env : nat -> Tick Answer.

Local Open Scope Z_scope.

Lemma probeStarts_app (a b : list Event) :
  probeStarts (a ++ b) = probeStarts a ++ probeStarts b.
Proof.
  induction a as [|e a IH]; simpl; [reflexivity|].
  destruct e; simpl; rewrite ?IH; reflexivity.
Qed.

Lemma now_rested (t : Tick Answer) (w : World) :
  now (rested t w) = now w + period t.
Proof. unfold rested, probed, period. simpl. lia. Qed.

Lemma superviseLoop_healthy fuel k ts T child closed w :
  healthCheck (answer (env k)) = CTrue ->
  superviseLoop healthCheck env (S fuel) k ts T child closed w
  = (Started child,
     recordProcess child
       (emit (Unpipe child Stderr) (emit (Unpipe child Stdout) (probed (env k) w)))).
Proof. intros H. simpl. rewrite H. reflexivity. Qed.

Lemma superviseLoop_gives_up fuel k ts T child closed w :
  notYet (healthCheck (answer (env k))) ->
  closed || closeInProbe (env k) = true \/ T * 1000 < now w + latency (env k) - ts ->
  superviseLoop healthCheck env (S fuel) k ts T child closed w
  = (Failed, emit (Unref child) (emit (ChildKill child SIGTERM) (probed (env k) w))).
Proof.
  intros Hno Hwhy. simpl.
  assert (closed || closeInProbe (env k)
          || (T * 1000 <? now w + latency (env k) - ts) = true) as ->.
  { destruct Hwhy as [-> | Hlate]; [reflexivity|].
    apply Z.ltb_lt in Hlate. rewrite Hlate. apply orb_true_r. }
  destruct Hno as [-> | ->]; reflexivity.
Qed.

Lemma superviseLoop_goes_on fuel k ts T child closed w :
  notYet (healthCheck (answer (env k))) ->
  closed || closeInProbe (env k) = false ->
  now w + latency (env k) - ts <= T * 1000 ->
  superviseLoop healthCheck env (S fuel) k ts T child closed w
  = superviseLoop healthCheck env fuel (S k) ts T child
                  (closeInWait (env k)) (rested (env k) w).
Proof.
  intros Hno Hopen Hbudget. simpl. rewrite Hopen. simpl.
  assert ((T * 1000 <? now w + latency (env k) - ts) = false) as ->
      by (apply Z.ltb_ge; exact Hbudget).
  replace (5000 - (now w + latency (env k)) + now w)
    with (5000 - latency (env k)) by lia.
  destruct Hno as [-> | ->]; reflexivity.
Qed.

(** A loop that came to an end does so whatever fuel is added. *)
Lemma superviseLoop_more_fuel (n m : nat) :
  forall k ts T child closed w outcome w',
    superviseLoop healthCheck env n k ts T child closed w = (outcome, w') ->
    outcome <> Spinning ->
    superviseLoop healthCheck env (n + m) k ts T child closed w = (outcome, w').
Proof.
  induction n as [|n IH]; intros k ts T child closed w outcome w' Hrun Hdone;
    simpl in *; [injection Hrun as <- _; contradiction|].
  destruct (healthCheck (answer (env k))); try exact Hrun.
  all: destruct (closed || closeInProbe (env k)
                 || (T * 1000 <? now w + latency (env k) - ts));
    [exact Hrun | apply IH; assumption].
Qed.

(** Whatever way the loop fails, the last two things it did were to send
    SIGTERM to the child and to unref it, and the registry is as it was. *)
Lemma superviseLoop_failed fuel :
  forall k ts T child closed w w',
    superviseLoop healthCheck env fuel k ts T child closed w = (Failed, w') ->
    subprocesses w' = subprocesses w
    /\ timers w' = timers w
    /\ exists before,
        events w' = events w ++ before ++ [ChildKill child SIGTERM; Unref child].
Proof.
  induction fuel as [|fuel IH]; intros k ts T child closed w w' Hrun;
    [discriminate|].
  simpl in Hrun.
  destruct (healthCheck (answer (env k))); try discriminate.
  all: destruct (closed || closeInProbe (env k)
                 || (T * 1000 <? now w + latency (env k) - ts)).
  all: try (injection Hrun as <-; simpl; repeat split; try reflexivity;
            exists [HealthCheck (now w)]; rewrite <- !app_assoc; reflexivity).
  all: apply IH in Hrun as (Hs & Ht & before & He); simpl in *;
       repeat split; try assumption;
       exists (HealthCheck (now w)
               :: Sleep (5000 - (now w + latency (env k)) + now w) :: before);
       rewrite He, <- !app_assoc; reflexivity.
Qed.

Lemma timerDelay_positive (d : Z) : 1 <= timerDelay d.
Proof.
  unfold timerDelay. destruct (1 <=? d) eqn:E; simpl; [|lia].
  destruct (d <=? 2147483647); [apply Z.leb_le, E | lia].
Qed.

Lemma period_on_time (t : Tick Answer) :
  0 <= latency t -> lateness t = 0 ->
  period t = Z.max 5000 (latency t + 1).
Proof.
  intros Hl Hz. unfold period, timerDelay. rewrite Hz.
  destruct (1 <=? 5000 - latency t) eqn:E1; simpl.
  - apply Z.leb_le in E1.
    assert ((5000 - latency t <=? 2147483647) = true) as ->
        by (apply Z.leb_le; lia).
    lia.
  - apply Z.leb_gt in E1. lia.
Qed.

(** With a check that never says yes and a child that never closes, the
    loop gives up: some iteration [j] finds the budget spent. *)
Lemma superviseLoop_times_out (T ts : Z) (child : ChildProcess) :
  NeverHealthy healthCheck env ->
  forall n k w,
    0 <= now w - ts <= T * 1000 + 5000 ->
    T * 1000 + 5000 - (now w - ts) < Z.of_nat n ->
    exists j w',
      superviseLoop healthCheck env n k ts T child false w = (Failed, w')
      /\ (k <= j)%nat
      /\ T * 1000 < now w' - ts <= T * 1000 + 5000 + latency (env j)
      /\ length (probeStarts (events w'))
         = (length (probeStarts (events w)) + S (j - k))%nat.
Proof.
  intros Hnever. induction n as [|n IH]; intros k w Hin Hfuel; [lia|].
  destruct (Hnever k) as (Hno & Hp & Hw & Hlat & Hlate).
  destruct (Z.lt_ge_cases (T * 1000) (now w + latency (env k) - ts)) as [Hout|Hok].
  - exists k, (emit (Unref child) (emit (ChildKill child SIGTERM) (probed (env k) w))).
    split; [apply superviseLoop_gives_up; auto|].
    split; [lia|]. simpl. split; [lia|].
    rewrite !probeStarts_app. simpl. rewrite !length_app. simpl.
    rewrite Nat.sub_diag. lia.
  - rewrite superviseLoop_goes_on; [|exact Hno|rewrite Hp; reflexivity|exact Hok].
    rewrite Hw.
    pose proof (now_rested (env k) w) as Hnow.
    rewrite (period_on_time _ Hlat Hlate) in Hnow.
    destruct (IH (S k) (rested (env k) w)) as (j & w' & Hrun & Hj & Hb & Hlen);
      [lia | lia |].
    exists j, w'. split; [exact Hrun|]. split; [lia|]. split; [exact Hb|].
    rewrite Hlen. unfold rested, probed. simpl.
    rewrite !probeStarts_app. simpl. rewrite !length_app. simpl.
    replace (j - k)%nat with (S (j - S k)) by lia. lia.
Qed.

End PollLoopFacts.

(** ** Starting a service and waiting for its health *)
Section SupervisorClaims.
Import Subprocess Http Supervisor Options Samples.

Local Open Scope Z_scope.

Lemma occurrences_app (child : ChildProcess) (a b : list (option ChildProcess)) :
  occurrences child (a ++ b)
  = (occurrences child a + occurrences child b)%nat.
Proof.
  induction a as [|[proc|] a IH]; simpl; [reflexivity| |exact IH].
  destruct (Nat.eqb (handle proc) (handle child)); simpl; rewrite IH; reflexivity.
Qed.

(** An object allocated after every registered one is not registered. *)
Lemma occurrences_fresh (child : ChildProcess) (l : list (option ChildProcess)) :
  Forall (fun proc => (handle proc < handle child)%nat) (entries l) ->
  occurrences child l = O.
Proof.
  induction l as [|[proc|] l IH]; simpl; intros Hall; [reflexivity| |auto].
  inversion Hall as [|? ? Hlt Hrest]; subst.
  destruct (Nat.eqb_spec (handle proc) (handle child)) as [E|_]; [lia|auto].
Qed.

(** No, no, yes: the loop started on a fresh child returns it at the
    third check. *)
Lemma third_probe_succeeds {Answer} (healthCheck : Answer -> CheckResult)
      (env : nat -> Tick Answer) (fuel : nat) (T : Z)
      (command : string) (args : list string) (childPid : Z) (w : World) :
  registryFresh w ->
  FalseFalseTrue healthCheck env T ->
  exists w',
    superviseLoop healthCheck env (3 + fuel) 0 (now w) T
                  (spawnPiped command args childPid w).1 false
                  (spawnPiped command args childPid w).2
    = (Started (spawnPiped command args childPid w).1, w')
    /\ probeStarts (events w')
       = probeStarts (events w)
         ++ [now w; now w + period (env 0%nat);
             now w + period (env 0%nat) + period (env 1%nat)]
    /\ occurrences (spawnPiped command args childPid w).1 (subprocesses w') = 1%nat.
Proof.
  intros Hfresh [H0 H1 H2 [Hp0 Hw0] Hp1 Hb0 Hb1].
  set (child := {| handle := nextHandle w; pid := childPid |}).
  change (spawnPiped command args childPid w).1 with child.
  set (w0 := (spawnPiped command args childPid w).2).
  assert (now w0 = now w) as Hnow by reflexivity.
  change (3 + fuel)%nat with (S (S (S fuel))).
  rewrite superviseLoop_goes_on; [|exact H0|rewrite Hp0; reflexivity|lia].
  rewrite Hw0.
  rewrite superviseLoop_goes_on;
    [|exact H1|rewrite Hp1; reflexivity|rewrite now_rested; lia].
  rewrite superviseLoop_healthy by exact H2.
  eexists. split; [reflexivity|]. split.
  - simpl. rewrite !probeStarts_app. simpl.
    rewrite !app_nil_r, <- !app_assoc. simpl. unfold period.
    repeat (f_equal; try lia).
  - simpl. rewrite occurrences_app. simpl. rewrite Nat.eqb_refl.
    rewrite occurrences_fresh; [reflexivity|]. exact Hfresh.
Qed.

Example third_probe_run :
  OpenSearch.runOpenSearch false 4242 redRedGreen 3 "/srv/osd/OpenSearch-v2.13.0"
                           180 releaseOptions idle
  = (Started child4242,
     {| now := 10040; nextHandle := 1; subprocesses := [Some child4242];
        timers := [];
        events :=
          [ Spawn child4242 "/srv/osd/OpenSearch-v2.13.0/bin/opensearch" [];
            Pipe child4242 Stdout; Pipe child4242 Stderr;
            HealthCheck 0; Sleep 4960;
            HealthCheck 5000; Sleep 4960;
            HealthCheck 10000;
            Unpipe child4242 Stdout; Unpipe child4242 Stderr ] |}).
Proof. reflexivity. Qed.

(** C1.  For every health check and every child: when the check of an
    iteration comes back true, the loop ends in that iteration; it unpipes
    the child's stdout and stderr, appends the handle to the registry and
    returns it, whatever the state of the budget or of the child.  In
    particular a check that says no, no, yes (to a child that is still up
    and within budget at the first two answers) makes [runOpenSearch] and
    [runDashboards] succeed at the third check, and the handle returned
    occurs exactly once in the registry. *)
Theorem healthy_probe_registers_once :
  (forall (Answer : Type) (healthCheck : Answer -> CheckResult)
          (env : nat -> Tick Answer) (fuel k : nat) (ts T : Z)
          (child : ChildProcess) (closed : bool) (w : World),
      healthCheck (answer (env k)) = CTrue ->
      exists w',
        superviseLoop healthCheck env (S fuel) k ts T child closed w
        = (Started child, w')
        /\ events w'
           = events w
             ++ [HealthCheck (now w); Unpipe child Stdout; Unpipe child Stderr]
        /\ subprocesses w' = subprocesses w ++ [Some child])
  /\ (forall win32 childPid env fuel folder T opts w,
         registryFresh w ->
         FalseFalseTrue (OpenSearch.checkOpenSearchHealth opts) env T ->
         exists child w',
           OpenSearch.runOpenSearch win32 childPid env (3 + fuel) folder T opts w
           = (Started child, w')
           /\ length (probeStarts (events w'))
              = (length (probeStarts (events w)) + 3)%nat
           /\ occurrences child (subprocesses w') = 1%nat)
  /\ (forall win32 childPid env fuel folder T opts w,
         registryFresh w ->
         FalseFalseTrue (Dashboards.checkDashboardsHealth opts) env T ->
         exists child w',
           Dashboards.runDashboards win32 childPid env (3 + fuel) folder T opts w
           = (Started child, w')
           /\ length (probeStarts (events w'))
              = (length (probeStarts (events w)) + 3)%nat
           /\ occurrences child (subprocesses w') = 1%nat).
Proof.
  split; [|split].
  - intros Answer healthCheck env fuel k ts T child closed w Hyes.
    rewrite superviseLoop_healthy by exact Hyes.
    eexists. split; [reflexivity|]. simpl.
    rewrite <- !app_assoc. split; reflexivity.
  - intros win32 childPid env fuel folder T opts w Hfresh Hstub.
    unfold OpenSearch.runOpenSearch.
    set (command := pathJoin _ _).
    destruct (third_probe_succeeds _ env fuel T command [] childPid w
                                   Hfresh Hstub)
      as (w' & Hrun & Hstarts & Hocc).
    exists (spawnPiped command [] childPid w).1, w'.
    split; [exact Hrun|]. split; [|exact Hocc].
    rewrite Hstarts, length_app. reflexivity.
  - intros win32 childPid env fuel folder T opts w Hfresh Hstub.
    unfold Dashboards.runDashboards.
    destruct (if Utils.isVersionJs (dashboardsVersion opts) || build opts
              then _ else _) as [command args].
    destruct (third_probe_succeeds _ env fuel T command args childPid w
                                   Hfresh Hstub)
      as (w' & Hrun & Hstarts & Hocc).
    exists (spawnPiped command args childPid w).1, w'.
    split; [exact Hrun|]. split; [|exact Hocc].
    rewrite Hstarts, length_app. reflexivity.
Qed.

Lemma redRedGreen_stub :
  FalseFalseTrue (OpenSearch.checkOpenSearchHealth releaseOptions) redRedGreen 180.
Proof.
  constructor; simpl; try (left; reflexivity); try reflexivity;
    try (split; reflexivity); vm_compute; discriminate.
Qed.

Lemma healthy_probe_registers_once_witness :
  exists child w',
    OpenSearch.runOpenSearch false 4242 redRedGreen (3 + 0)
                             "/srv/osd/OpenSearch-v2.13.0" 180 releaseOptions idle
    = (Started child, w')
    /\ length (probeStarts (events w'))
       = (length (probeStarts (events idle)) + 3)%nat
    /\ occurrences child (subprocesses w') = 1%nat.
Proof.
  destruct healthy_probe_registers_once as (_ & Hos & _).
  apply Hos; [constructor | exact redRedGreen_stub].
Defined.

Example timeout_run_instant_probes :
  (OpenSearch.runOpenSearch false 4242 alwaysRefused 10
                            "/srv/osd/OpenSearch-v2.13.0" 10 releaseOptions idle).1
  = Failed
  /\ now (OpenSearch.runOpenSearch false 4242 alwaysRefused 10
                                   "/srv/osd/OpenSearch-v2.13.0" 10
                                   releaseOptions idle).2 = 15000.
Proof. split; reflexivity. Qed.

Lemma slowFourthProbe_never_healthy :
  NeverHealthy (OpenSearch.checkOpenSearchHealth releaseOptions) slowFourthProbe.
Proof.
  intros k. unfold slowFourthProbe.
  destruct k as [|[|[|[|k]]]]; simpl;
    (split; [right; reflexivity|]); repeat split; lia.
Qed.

(** The claim, read on the code: a budget of 10 s and a check that always
    fails would end the loop within 15 s.  When the fourth check takes
    3 s to fail, the loop ends after 18 s. *)
Lemma timeout_later_than_five_seconds_over :
  NeverHealthy (OpenSearch.checkOpenSearchHealth releaseOptions) slowFourthProbe
  /\ (OpenSearch.runOpenSearch false 4242 slowFourthProbe 10
                               "/srv/osd/OpenSearch-v2.13.0" 10
                               releaseOptions idle).1 = Failed
  /\ now (OpenSearch.runOpenSearch false 4242 slowFourthProbe 10
                                   "/srv/osd/OpenSearch-v2.13.0" 10
                                   releaseOptions idle).2 - now idle = 18000
  /\ (10 + 5) * 1000 < 18000.
Proof.
  split; [exact slowFourthProbe_never_healthy|].
  split; [reflexivity|]. split; [reflexivity|lia].
Qed.

(** C2, amended.  With a budget of [T] seconds, a check that never says
    yes, a child that never closes and timers that fire on time, the loop
    does give up, at its check number [j]; it does so more than [T]
    seconds after it started and at most [T + 5] seconds plus the latency
    of that last check after it started (so within [T + 5] seconds when
    that check answers at once).  An iteration that does not end the loop
    makes the next check start [max 5000 (latency + 1)] ms after its own
    start: exactly 5 s later whenever its check took less than 5 s. *)
Theorem timeout_window {Answer : Type} (healthCheck : Answer -> CheckResult)
        (env : nat -> Tick Answer) (T : Z) (child : ChildProcess) (w : World) :
  NeverHealthy healthCheck env ->
  0 <= T ->
  (exists enough j w',
      (forall fuel,
          (enough <= fuel)%nat ->
          superviseLoop healthCheck env fuel 0 (now w) T child false w
          = (Failed, w'))
      /\ length (probeStarts (events w'))
         = (length (probeStarts (events w)) + S j)%nat
      /\ T * 1000 < now w' - now w <= T * 1000 + 5000 + latency (env j)
      /\ (latency (env j) = 0 -> now w' - now w <= (T + 5) * 1000))
  /\ (forall fuel k ts w1,
         now w1 + latency (env k) - ts <= T * 1000 ->
         superviseLoop healthCheck env (S fuel) k ts T child false w1
         = superviseLoop healthCheck env fuel (S k) ts T child false
                         (rested (env k) w1)
         /\ now (rested (env k) w1) = now w1 + Z.max 5000 (latency (env k) + 1)
         /\ (latency (env k) < 5000 -> now (rested (env k) w1) = now w1 + 5000)).
Proof.
  intros Hnever HT. split.
  - destruct (superviseLoop_times_out healthCheck env T (now w) child Hnever
                (Z.to_nat (T * 1000 + 5001)) 0%nat w)
      as (j & w' & Hrun & _ & Hb & Hlen); [lia | lia |].
    exists (Z.to_nat (T * 1000 + 5001)), j, w'.
    split; [|split; [rewrite Hlen; f_equal; lia | split; [exact Hb | lia]]].
    intros fuel Hfuel.
    replace fuel
      with (Z.to_nat (T * 1000 + 5001) + (fuel - Z.to_nat (T * 1000 + 5001)))%nat
      by lia.
    apply superviseLoop_more_fuel; [exact Hrun | discriminate].
  - intros fuel k ts w1 Hbudget.
    destruct (Hnever k) as (Hno & Hp & Hw & Hlat & Hlate).
    rewrite superviseLoop_goes_on; [|exact Hno|rewrite Hp; reflexivity|exact Hbudget].
    rewrite Hw, now_rested, (period_on_time _ Hlat Hlate).
    split; [reflexivity|]. split; [reflexivity|lia].
Qed.

Lemma alwaysRefused_never_healthy :
  NeverHealthy (OpenSearch.checkOpenSearchHealth releaseOptions) alwaysRefused.
Proof.
  intros k. simpl. split; [right; reflexivity|]. repeat split; lia.
Qed.

Lemma timeout_window_witness :
  exists enough j w',
    (forall fuel,
        (enough <= fuel)%nat ->
        superviseLoop (OpenSearch.checkOpenSearchHealth releaseOptions)
                      alwaysRefused fuel 0 (now idle) 10 child4242 false idle
        = (Failed, w'))
    /\ length (probeStarts (events w'))
       = (length (probeStarts (events idle)) + S j)%nat
    /\ 10 * 1000 < now w' - now idle <= 10 * 1000 + 5000 + latency (alwaysRefused j)
    /\ (latency (alwaysRefused j) = 0 -> now w' - now idle <= (10 + 5) * 1000).
Proof.
  apply (timeout_window (OpenSearch.checkOpenSearchHealth releaseOptions)
                        alwaysRefused 10 child4242 idle
                        alwaysRefused_never_healthy).
  lia.
Defined.

Example close_noticed_after_wait :
  OpenSearch.runOpenSearch false 4242 closesWhileWaiting 5
                           "/srv/osd/OpenSearch-v2.13.0" 180 releaseOptions idle
  = (Failed,
     {| now := 5000; nextHandle := 1; subprocesses := []; timers := [];
        events :=
          [ Spawn child4242 "/srv/osd/OpenSearch-v2.13.0/bin/opensearch" [];
            Pipe child4242 Stdout; Pipe child4242 Stderr;
            HealthCheck 0; Sleep 5000;
            HealthCheck 5000;
            ChildKill child4242 SIGTERM; Unref child4242 ] |}).
Proof. reflexivity. Qed.

(** The claim, read on the code: once the child's 'close' event has
    fired, the loop would end at once, as a failure.  When the event
    fires during a wait, the wait still runs its 5 s and another check is
    made; the loop fails only after that check, and if that check says
    yes the closed child is returned and registered. *)
Lemma close_during_wait_does_not_end_loop :
  closeInWait (closesWhileWaiting 0) = true
  /\ (OpenSearch.runOpenSearch false 4242 closesWhileWaiting 5
                               "/srv/osd/OpenSearch-v2.13.0" 180
                               releaseOptions idle).1 = Failed
  /\ probeStarts
       (events (OpenSearch.runOpenSearch false 4242 closesWhileWaiting 5
                                         "/srv/osd/OpenSearch-v2.13.0" 180
                                         releaseOptions idle).2)
     = [0; 5000]
  /\ closeInWait (closesThenAnswers 0) = true
  /\ (OpenSearch.runOpenSearch false 4242 closesThenAnswers 5
                               "/srv/osd/OpenSearch-v2.13.0" 180
                               releaseOptions idle).1 = Started child4242
  /\ subprocesses
       (OpenSearch.runOpenSearch false 4242 closesThenAnswers 5
                                 "/srv/osd/OpenSearch-v2.13.0" 180
                                 releaseOptions idle).2
     = [Some child4242].
Proof. repeat split; reflexivity. Qed.

(** C3, amended.  Whenever the loop ends in failure, the last two things
    it did were to send SIGTERM to the child and to unref it, and the
    registry (like the list of timers) is what it was: the child is not
    added.  The loop looks at the 'close' flag once per iteration, after a
    check that did not say yes: if the flag is up by then, the loop fails
    in that iteration without starting a wait, whatever is left of the
    budget.  A 'close' event that arrives during the wait of an iteration
    does not cut the wait short: the wait runs for the delay of its timer
    and the next check is made; the loop fails only after that check, when
    it does not say yes, and when it says yes the closed child is returned
    and added to the registry. *)
Theorem failure_kills_and_forgets {Answer : Type}
        (healthCheck : Answer -> CheckResult) (env : nat -> Tick Answer)
        (child : ChildProcess) :
  (forall fuel k ts T closed w w',
      superviseLoop healthCheck env fuel k ts T child closed w = (Failed, w') ->
      subprocesses w' = subprocesses w
      /\ timers w' = timers w
      /\ exists before,
          events w'
          = events w ++ before ++ [ChildKill child SIGTERM; Unref child])
  /\ (forall fuel k ts T closed w,
         notYet (healthCheck (answer (env k))) ->
         closed || closeInProbe (env k) = true ->
         exists w',
           superviseLoop healthCheck env (S fuel) k ts T child closed w
           = (Failed, w')
           /\ events w'
              = events w
                ++ [HealthCheck (now w); ChildKill child SIGTERM; Unref child]
           /\ now w' = now w + latency (env k))
  /\ (forall fuel k ts T closed w,
         notYet (healthCheck (answer (env k))) ->
         closed || closeInProbe (env k) = false ->
         now w + latency (env k) - ts <= T * 1000 ->
         closeInWait (env k) = true ->
         let delay := 5000 - latency (env k) in
         let next :=
           now w + latency (env k) + (timerDelay delay + lateness (env k)) in
         (healthCheck (answer (env (S k))) = CTrue ->
          exists w',
            superviseLoop healthCheck env (S (S fuel)) k ts T child closed w
            = (Started child, w')
            /\ events w'
               = events w
                 ++ [HealthCheck (now w); Sleep delay; HealthCheck next;
                     Unpipe child Stdout; Unpipe child Stderr]
            /\ subprocesses w' = subprocesses w ++ [Some child])
         /\ (notYet (healthCheck (answer (env (S k)))) ->
             exists w',
               superviseLoop healthCheck env (S (S fuel)) k ts T child closed w
               = (Failed, w')
               /\ events w'
                  = events w
                    ++ [HealthCheck (now w); Sleep delay; HealthCheck next;
                        ChildKill child SIGTERM; Unref child]
               /\ now w' = next + latency (env (S k))
               /\ subprocesses w' = subprocesses w)).
Proof.
  split; [|split].
  - intros fuel k ts T closed w w' Hrun.
    exact (superviseLoop_failed healthCheck env fuel k ts T child closed w w' Hrun).
  - intros fuel k ts T closed w Hno Hclosed.
    rewrite superviseLoop_gives_up; [|exact Hno|left; exact Hclosed].
    eexists. split; [reflexivity|]. simpl.
    rewrite <- !app_assoc. split; reflexivity.
  - intros fuel k ts T closed w Hno Hopen Hbudget Hwait delay next.
    rewrite superviseLoop_goes_on; [|exact Hno|exact Hopen|exact Hbudget].
    rewrite Hwait. split.
    + intros Hyes. rewrite superviseLoop_healthy by exact Hyes.
      eexists. split; [reflexivity|]. simpl.
      rewrite <- !app_assoc. split; reflexivity.
    + intros Hnext.
      rewrite superviseLoop_gives_up; [|exact Hnext|left; reflexivity].
      eexists. split; [reflexivity|]. simpl.
      rewrite <- !app_assoc. repeat split; reflexivity.
Qed.

Lemma failure_kills_and_forgets_witness :
  (subprocesses
     (superviseLoop (OpenSearch.checkOpenSearchHealth releaseOptions)
                    closesWhileWaiting 5 0 0 180 child4242 false idle).2
   = subprocesses idle
   /\ timers
        (superviseLoop (OpenSearch.checkOpenSearchHealth releaseOptions)
                       closesWhileWaiting 5 0 0 180 child4242 false idle).2
      = timers idle
   /\ exists before,
       events
         (superviseLoop (OpenSearch.checkOpenSearchHealth releaseOptions)
                        closesWhileWaiting 5 0 0 180 child4242 false idle).2
       = events idle ++ before ++ [ChildKill child4242 SIGTERM; Unref child4242])
  /\ (exists w',
      superviseLoop (OpenSearch.checkOpenSearchHealth releaseOptions)
                    alwaysRefused 1 0 0 180 child4242 true idle
      = (Failed, w')
      /\ events w'
         = events idle
           ++ [HealthCheck (now idle); ChildKill child4242 SIGTERM;
               Unref child4242]
      /\ now w' = now idle + latency (alwaysRefused 0))
  /\ (exists w',
      superviseLoop (OpenSearch.checkOpenSearchHealth releaseOptions)
                    closesThenAnswers 2 0 0 180 child4242 false idle
      = (Started child4242, w')
      /\ events w'
         = events idle
           ++ [HealthCheck 0; Sleep 5000; HealthCheck 5000;
               Unpipe child4242 Stdout; Unpipe child4242 Stderr]
      /\ subprocesses w' = subprocesses idle ++ [Some child4242])
  /\ (exists w',
      superviseLoop (OpenSearch.checkOpenSearchHealth releaseOptions)
                    closesWhileWaiting 2 0 0 180 child4242 false idle
      = (Failed, w')
      /\ events w'
         = events idle
           ++ [HealthCheck 0; Sleep 5000; HealthCheck 5000;
               ChildKill child4242 SIGTERM; Unref child4242]
      /\ now w' = 5000
      /\ subprocesses w' = subprocesses idle).
Proof.
  destruct (failure_kills_and_forgets
              (OpenSearch.checkOpenSearchHealth releaseOptions)
              closesWhileWaiting child4242) as (Hany & _ & Hwait).
  destruct (failure_kills_and_forgets
              (OpenSearch.checkOpenSearchHealth releaseOptions)
              alwaysRefused child4242) as (_ & Hflag & _).
  destruct (failure_kills_and_forgets
              (OpenSearch.checkOpenSearchHealth releaseOptions)
              closesThenAnswers child4242) as (_ & _ & Hlate).
  split; [|split; [|split]].
  - apply (Hany 5%nat 0%nat 0 180 false idle). reflexivity.
  - apply (Hflag 0%nat 0%nat 0 180 true idle); [right|]; reflexivity.
  - apply (Hlate 0%nat 0%nat 0 180 false idle);
      [right; reflexivity | reflexivity | simpl; lia | reflexivity | reflexivity].
  - apply (Hwait 0%nat 0%nat 0 180 false idle);
      [right; reflexivity | reflexivity | simpl; lia | reflexivity
       | right; reflexivity].
Defined.

End SupervisorClaims.

(** ** Downloads *)
Section DownloadFacts.
Import JsString Utils Reference Samples.
Variable net : string -> Exchange.
Variable newURL : string -> string -> string.
Variable dest : string.

Lemma length_append (a b : string) :
  String.length (a +:+ b) = String.length a + String.length b.
Proof. induction a as [|c a IH]; simpl; [reflexivity | now rewrite IH]. Qed.

(** The temporary file is never the destination itself. *)
Lemma temp_is_sibling : dest +:+ ".temp" <> dest.
Proof.
  intros H. apply (f_equal String.length) in H.
  rewrite length_append in H. simpl in H. lia.
Qed.

Lemma untouched_same (fs s : gmap string string) :
  s !! dest = fs !! dest -> Untouched dest fs s.
Proof. intros H. left. exact H. Qed.

Lemma untouched_rebase (fs fs' : gmap string string) (states : list (gmap string string)) :
  fs' !! dest = fs !! dest ->
  Forall (Untouched dest fs') states -> Forall (Untouched dest fs) states.
Proof.
  intros Hsame Hall. eapply Forall_impl; [exact Hall|].
  intros s [H|H]; [left; congruence | right; exact H].
Qed.

(** Piping writes to the temporary file only, and leaves in it what it
    held followed by the chunks. *)
Lemma pipeChunks_states (chunks : list string) :
  forall (fs : gmap string string) (held : string),
    fs !! (dest +:+ ".temp") = Some held ->
    Forall (fun s => s !! dest = fs !! dest)
           (pipeChunks (dest +:+ ".temp") chunks fs)
    /\ default fs (last (pipeChunks (dest +:+ ".temp") chunks fs)) !! dest
       = fs !! dest
    /\ default fs (last (pipeChunks (dest +:+ ".temp") chunks fs))
         !! (dest +:+ ".temp")
       = Some (held +:+ wholeBody chunks).
Proof.
  induction chunks as [|c chunks IH]; intros fs held Hheld; simpl.
  - rewrite append_nil_r. auto.
  - rewrite Hheld. simpl.
    set (fs' := <[dest +:+ ".temp" := held +:+ c]> fs).
    assert (fs' !! dest = fs !! dest) as Hdest
        by (apply lookup_insert_ne, temp_is_sibling).
    destruct (IH fs' (held +:+ c)) as (Hall & Hlast & Htmp);
      [apply lookup_insert_eq|].
    assert (default fs (last (fs' :: pipeChunks (dest +:+ ".temp") chunks fs'))
            = default fs' (last (pipeChunks (dest +:+ ".temp") chunks fs'))) as ->.
    { rewrite last_cons. destruct (last _); reflexivity. }
    split; [|split].
    + constructor; [exact Hdest|].
      eapply Forall_impl; [exact Hall|]. simpl. intros s Hs. congruence.
    + congruence.
    + rewrite Htmp, append_assoc. reflexivity.
Qed.

(** What a run of [_download] does to the destination: until the very
    last state of a resolved run the file is untouched, and that last
    state holds the whole body of a response that finished. *)
Lemma download_states (fuel : nat) :
  forall (url : string) (fs : gmap string string) fate states,
    _download net newURL fuel url dest fs = (fate, states) ->
    match fate with
    | Resolved d =>
        d = dest
        /\ exists init final u code msg loc chunks,
            states = init ++ [final]
            /\ Forall (Untouched dest fs) init
            /\ net u = Response code msg loc chunks (Finish true)
            /\ final !! dest = Some (wholeBody chunks)
    | _ => Forall (Untouched dest fs) states
    end.
Proof.
  assert (forall fs : gmap string string,
             delete (dest +:+ ".temp") fs !! dest = fs !! dest) as Hrm
      by (intros fs; apply lookup_delete_ne, temp_is_sibling).
  induction fuel as [|fuel IH]; intros url fs fate states; simpl.
  all: destruct (net url) as [message|code msg loc chunks ending] eqn:Hnet.
  all: try (intros [= <- <-]; repeat constructor; apply Hrm).
  all: destruct ((code <? 200)%Z || (400 <=? code)%Z);
    [intros [= <- <-]; repeat constructor; apply Hrm|].
  all: destruct (300 <? code)%Z.
  all: try (destruct (truthy loc);
            [|intros [= <- <-]; repeat constructor; apply Hrm]).
  1: intros [= <- <-]; repeat constructor; apply Hrm.
  2: { destruct (_download net newURL fuel _ dest _) as [fate' states'] eqn:Hrec.
       intros [= <- <-]. apply IH in Hrec.
       destruct fate' as [d| | |].
       - destruct Hrec as (-> & init & final & u & c & m & l & ch & -> & Hinit & Hu & Hfinal).
         split; [reflexivity|].
         exists (delete (dest +:+ ".temp") fs :: init), final, u, c, m, l, ch.
         split; [reflexivity|]. split; [|auto].
         constructor; [left; apply Hrm|].
         eapply untouched_rebase; [apply Hrm | exact Hinit].
       - constructor; [left; apply Hrm|].
         eapply untouched_rebase; [apply Hrm | exact Hrec].
       - constructor; [left; apply Hrm|].
         eapply untouched_rebase; [apply Hrm | exact Hrec].
       - constructor; [left; apply Hrm|].
         eapply untouched_rebase; [apply Hrm | exact Hrec]. }
  all: set (fs1 := delete (dest +:+ ".temp") fs).
  all: set (fs2 := <[dest +:+ ".temp" := EmptyString]> fs1).
  all: assert (fs2 !! dest = fs !! dest) as H2
      by (unfold fs2; rewrite lookup_insert_ne by apply temp_is_sibling; apply Hrm).
  all: destruct (pipeChunks_states chunks fs2 EmptyString) as (Hall & Hlast & Htmp);
    [apply lookup_insert_eq|].
  all: assert (Forall (Untouched dest fs)
                      (fs1 :: fs2 :: pipeChunks (dest +:+ ".temp") chunks fs2))
    as Hpre
    by (constructor; [left; apply Hrm|]; constructor; [left; exact H2|];
        eapply Forall_impl; [exact Hall|]; intros s Hs; left; congruence).
  all: destruct ending as [[|]|message|]; intros [= <- <-]; try exact Hpre.
  all: try (rewrite !app_comm_cons; apply Forall_app; split; [exact Hpre|];
            constructor; [right; apply lookup_delete_eq | constructor]).
  all: split; [reflexivity|].
  all: eexists (fs1 :: fs2 :: pipeChunks (dest +:+ ".temp") chunks fs2
                ++ [delete dest _]), _, url, code, msg, loc, chunks.
  all: split; [rewrite !app_comm_cons, <- app_assoc; reflexivity|].
  all: split; [rewrite !app_comm_cons; apply Forall_app; split; [exact Hpre|];
               constructor; [right; apply lookup_delete_eq | constructor]|].
  all: split; [exact Hnet|].
  all: rewrite lookup_insert_eq, Htmp; reflexivity.
Qed.

End DownloadFacts.

Section DownloadClaims.
Import JsString Utils Reference Samples.

Example download_write_failure :
  (_download failingDisk absolute 3 "https://ci.example/os.tgz"
             "/home/me/.osd-launcher/os.tgz" staleCache).1
  = Rejected (Message "ENOSPC: no space left on device")
  /\ last (_download failingDisk absolute 3 "https://ci.example/os.tgz"
                     "/home/me/.osd-launcher/os.tgz" staleCache).2
     = Some (<["/home/me/.osd-launcher/os.tgz.temp" := "PK-first-half-second-half"]>
               staleCache).
Proof. split; vm_compute; reflexivity. Qed.

Example download_after_redirect :
  (_download mirror absolute 3 "https://ci.example/os.tgz"
             "/home/me/.osd-launcher/os.tgz" staleCache).1
  = Resolved "/home/me/.osd-launcher/os.tgz"
  /\ last (_download mirror absolute 3 "https://ci.example/os.tgz"
                     "/home/me/.osd-launcher/os.tgz" staleCache).2
     = Some {[ "/home/me/.osd-launcher/os.tgz" := "PK-first-half-second-half" ]}.
Proof. split; vm_compute; reflexivity. Qed.

(** C7.  Whatever the URL, the destination and the cache: when a
    download does not resolve (a rejected status, a request error, an
    error of the write stream, a response cut short, an exception in the
    'finish' listener, redirects without end), then in every state the
    cache goes through, the last one included, the destination file is
    what it was before or is absent.  The bytes go to the sibling
    [dest.temp]; only a download that resolves changes the destination,
    in its very last step, to the whole body of a response whose stream
    finished. *)
Theorem download_is_atomic (net : string -> Exchange)
        (newURL : string -> string -> string) (fuel : nat)
        (url dest : string) (fs : gmap string string) :
  ((_download net newURL fuel url dest fs).1 <> Resolved dest ->
   Forall (Untouched dest fs) (_download net newURL fuel url dest fs).2)
  /\ ((_download net newURL fuel url dest fs).1 = Resolved dest ->
      exists init final u code msg loc chunks,
        (_download net newURL fuel url dest fs).2 = init ++ [final]
        /\ Forall (Untouched dest fs) init
        /\ net u = Response code msg loc chunks (Finish true)
        /\ final !! dest = Some (wholeBody chunks)).
Proof.
  destruct (_download net newURL fuel url dest fs) as [fate states] eqn:Hrun.
  apply download_states in Hrun. simpl. split.
  - intros Hfailed. destruct fate as [d| | |]; try exact Hrun.
    destruct Hrun as [-> _]. contradiction.
  - intros ->. destruct Hrun as [_ Hrun]. exact Hrun.
Qed.

Lemma download_is_atomic_witness :
  Forall (Untouched "/home/me/.osd-launcher/os.tgz" staleCache)
         (_download failingDisk absolute 3 "https://ci.example/os.tgz"
                    "/home/me/.osd-launcher/os.tgz" staleCache).2
  /\ exists init final u code msg loc chunks,
      (_download mirror absolute 3 "https://ci.example/os.tgz"
                 "/home/me/.osd-launcher/os.tgz" staleCache).2 = init ++ [final]
      /\ Forall (Untouched "/home/me/.osd-launcher/os.tgz" staleCache) init
      /\ mirror u = Response code msg loc chunks (Finish true)
      /\ final !! "/home/me/.osd-launcher/os.tgz" = Some (wholeBody chunks).
Proof.
  split.
  - apply (download_is_atomic failingDisk absolute 3 "https://ci.example/os.tgz"
                              "/home/me/.osd-launcher/os.tgz" staleCache).
    vm_compute. discriminate.
  - apply (download_is_atomic mirror absolute 3 "https://ci.example/os.tgz"
                              "/home/me/.osd-launcher/os.tgz" staleCache).
    vm_compute. reflexivity.
Defined.

End DownloadClaims.

(** ** Health probes *)
Section ProbeFacts.
Import JsString Options Http Samples.

Lemma isText_iff (text : string) (v : option Json) :
  isText text v = true <-> v = Some (JString text).
Proof.
  destruct v as [[| | |s| |]|]; simpl; try (split; [discriminate|intros [=]]).
  rewrite String.eqb_eq. split; [intros ->; reflexivity | intros [= ->]; reflexivity].
Qed.

Lemma verdict_true (status : option Json) :
  OpenSearch.verdict status = CTrue
  <-> status = Some (JString "green") \/ status = Some (JString "yellow").
Proof.
  unfold OpenSearch.verdict. rewrite <- !isText_iff.
  destruct (isText "green" status), (isText "yellow" status); simpl;
    intuition discriminate.
Qed.

Example dashboards_ready :
  Dashboards.checkDashboardsHealth releaseOptions readyDashboards = CTrue.
Proof. reflexivity. Qed.

Example opensearch_yellow :
  OpenSearch.checkOpenSearchHealth releaseOptions (answering "yellow") = CTrue.
Proof. reflexivity. Qed.

Example opensearch_red :
  OpenSearch.checkOpenSearchHealth releaseOptions (answering "red") = CFalse.
Proof. reflexivity. Qed.

(** The claim, read on the code: with security on, the dashboard probe
    would use HTTPS, and any status outside 2xx would give [undefined].
    The dashboard probe asks over plain HTTP even then; and where the
    probes use [fetch], a 503 with a JSON body is judged by that body:
    [false] for a red dashboard, [true] for a green search engine. *)
Lemma probe_scheme_and_status_differ :
  security releaseOptions = true
  /\ url (Dashboards.statusRequest releaseOptions)
     = "http://0.0.0.0:5601/api/status"
  /\ Dashboards.checkDashboardsHealth releaseOptions startingDashboards = CFalse
  /\ OpenSearch.checkOpenSearchHealth plainOptions greenBehind503 = CTrue.
Proof. repeat split; reflexivity. Qed.

(** C8, amended.  The dashboard probe issues GET [/api/status], always
    over plain HTTP, and is true exactly when the reply carries a JSON
    content type and a body whose [status.overall.state] is the text
    green.  The search-engine probe issues GET [/_cluster/health], over
    HTTPS exactly when security is on, and is true exactly when the reply
    (with status 200, where HTTPS is used) carries a JSON content type and
    a body whose [status] is green or yellow.  A network error, a missing
    or non-JSON content type, a body that does not parse (where [fetch] is
    used) and a status other than 200 (where HTTPS is used) all give
    [undefined]. *)
Theorem health_probe_contract (opts : Options) (net : Request -> Reply) :
  url (Dashboards.statusRequest opts)
  = "http://" +:+ dashboardsHost opts +:+ ":" +:+ dashboardsPort opts
    +:+ "/api/status"
  /\ (Dashboards.checkDashboardsHealth opts net = CTrue
      <-> exists code text json,
          net (Dashboards.statusRequest opts)
          = HttpReply code (Some text) (Some json)
          /\ includes text "application/json" = true
          /\ prop "state" (prop "overall" (prop "status" (Some json)))
             = Some (JString "green"))
  /\ url (OpenSearch.healthRequest opts)
     = (if security opts then "https://" else "http://")
       +:+ opensearchHost opts +:+ ":" +:+ opensearchPort opts
       +:+ "/_cluster/health"
  /\ (OpenSearch.checkOpenSearchHealth opts net = CTrue
      <-> exists code text json,
          net (OpenSearch.healthRequest opts)
          = HttpReply code (Some text) (Some json)
          /\ (security opts = true -> code = 200%Z)
          /\ includes text "application/json" = true
          /\ (prop "status" (Some json) = Some (JString "green")
              \/ prop "status" (Some json) = Some (JString "yellow")))
  /\ (net (Dashboards.statusRequest opts) = NetworkError ->
      Dashboards.checkDashboardsHealth opts net = CUndefined)
  /\ (net (OpenSearch.healthRequest opts) = NetworkError ->
      OpenSearch.checkOpenSearchHealth opts net = CUndefined)
  /\ (forall code contentType body,
         net (Dashboards.statusRequest opts) = HttpReply code contentType body ->
         (forall text, contentType = Some text ->
                       includes text "application/json" = false) ->
         Dashboards.checkDashboardsHealth opts net = CUndefined)
  /\ (forall code contentType body,
         net (OpenSearch.healthRequest opts) = HttpReply code contentType body ->
         (forall text, contentType = Some text ->
                       includes text "application/json" = false) ->
         OpenSearch.checkOpenSearchHealth opts net = CUndefined)
  /\ (forall code contentType,
         net (Dashboards.statusRequest opts) = HttpReply code contentType None ->
         Dashboards.checkDashboardsHealth opts net = CUndefined)
  /\ (forall code contentType,
         security opts = false ->
         net (OpenSearch.healthRequest opts) = HttpReply code contentType None ->
         OpenSearch.checkOpenSearchHealth opts net = CUndefined)
  /\ (forall code contentType body,
         security opts = true ->
         net (OpenSearch.healthRequest opts) = HttpReply code contentType body ->
         code <> 200%Z ->
         OpenSearch.checkOpenSearchHealth opts net = CUndefined).
Proof.
  split; [reflexivity|]. split.
  { unfold Dashboards.checkDashboardsHealth.
    destruct (net (Dashboards.statusRequest opts)) as [|code [text|] [json|]];
      try (split; [discriminate | intros (? & ? & ? & [=] & _)]).
    - destruct (includes text "application/json") eqn:Hct; simpl.
      + destruct (isText "green" _) eqn:Hgreen.
        * apply isText_iff in Hgreen. split; [|reflexivity].
          intros _. exists code, text, json. auto.
        * split; [discriminate|].
          intros (? & ? & ? & [= <- <- <-] & _ & Hstate).
          apply isText_iff in Hstate. congruence.
      + split; [discriminate|].
        intros (? & ? & ? & [= <- <- <-] & Hyes & _). congruence.
    - destruct (includes text "application/json"); simpl;
        (split; [discriminate | intros (? & ? & ? & [=] & _)]). }
  split; [unfold OpenSearch.healthRequest; destruct (security opts); reflexivity|].
  split.
  { split.
    - unfold OpenSearch.checkOpenSearchHealth.
      destruct (net (OpenSearch.healthRequest opts))
        as [|code [text|] [json|]] eqn:Hnet;
        destruct (security opts) eqn:Hsec; try discriminate;
        try (destruct (code =? 200)%Z eqn:Hcode; cbn [negb]; try discriminate);
        try (destruct (includes text "application/json") eqn:Hct;
             cbn [negb]; try discriminate).
      all: intros Hv; apply verdict_true in Hv; exists code, text, json.
      all: split; [reflexivity|]; split; [|split; [exact Hct | exact Hv]].
      all: try (intros _; apply Z.eqb_eq; exact Hcode); intros [=].
    - intros (code & text & json & Hnet & H200 & Hct & Hstatus).
      unfold OpenSearch.checkOpenSearchHealth. rewrite Hnet.
      destruct (security opts).
      + rewrite (H200 eq_refl). cbn [Z.eqb Pos.eqb negb]. rewrite Hct.
        cbn [negb]. apply verdict_true, Hstatus.
      + rewrite Hct. cbn [negb]. apply verdict_true, Hstatus. }
  split.
  { intros Hnet. unfold Dashboards.checkDashboardsHealth. rewrite Hnet. reflexivity. }
  split.
  { intros Hnet. unfold OpenSearch.checkOpenSearchHealth. rewrite Hnet.
    destruct (security opts); reflexivity. }
  split.
  { intros code contentType body Hnet Hct.
    unfold Dashboards.checkDashboardsHealth. rewrite Hnet.
    destruct contentType as [text|]; [|reflexivity].
    rewrite (Hct text eq_refl). reflexivity. }
  split.
  { intros code contentType body Hnet Hct.
    unfold OpenSearch.checkOpenSearchHealth. rewrite Hnet.
    destruct contentType as [text|];
      [rewrite (Hct text eq_refl)|];
      destruct (security opts), (code =? 200)%Z; reflexivity. }
  split.
  { intros code contentType Hnet.
    unfold Dashboards.checkDashboardsHealth. rewrite Hnet.
    destruct contentType as [text|]; [|reflexivity].
    destruct (includes text "application/json"); reflexivity. }
  split.
  { intros code contentType Hsec Hnet.
    unfold OpenSearch.checkOpenSearchHealth. rewrite Hsec, Hnet.
    destruct contentType as [text|]; [|reflexivity].
    destruct (includes text "application/json"); reflexivity. }
  intros code contentType body Hsec Hnet Hcode.
  unfold OpenSearch.checkOpenSearchHealth. rewrite Hsec, Hnet.
  apply Z.eqb_neq in Hcode. rewrite Hcode. reflexivity.
Qed.

Lemma health_probe_contract_witness :
  Dashboards.checkDashboardsHealth releaseOptions unreachable = CUndefined
  /\ OpenSearch.checkOpenSearchHealth releaseOptions unreachable = CUndefined
  /\ OpenSearch.checkOpenSearchHealth releaseOptions greenBehind503 = CUndefined.
Proof.
  split; [|split].
  - apply (health_probe_contract releaseOptions unreachable). reflexivity.
  - apply (health_probe_contract releaseOptions unreachable). reflexivity.
  - destruct (health_probe_contract releaseOptions greenBehind503)
      as (_ & _ & _ & _ & _ & _ & _ & _ & _ & _ & Hstatus).
    apply (Hstatus 503%Z (Some "application/json")
                   (Some (JObject [("status", JString "green")])));
      [reflexivity | reflexivity | discriminate].
Defined.

End ProbeFacts.

(** ** Plugin sources *)
Section SourceFacts.
Import JsString Dashboards Samples.

Lemma truthy_nonempty (s : string) : s <> EmptyString -> truthy (Some s) = true.
Proof. destruct s; [contradiction | reflexivity]. Qed.

Example getSource_three_parts :
  getSource sampleProjects "maps" (Some " github:me/my-maps/feature ") None
  = Ok {| user := Some "me"; repo := Some "my-maps"; branch := Some "feature" |}.
Proof. vm_compute. reflexivity. Qed.

Example getSource_two_parts :
  getSource sampleProjects "maps" (Some "me/my-maps") None
  = Throw (NoSourceFound "Maps" (Some "me/my-maps") None).
Proof. vm_compute. reflexivity. Qed.

Example getSource_absent :
  getSource sampleProjects "maps" None (Some "2.x")
  = Ok {| user := Some "opensearch-project"; repo := Some "dashboards-maps";
          branch := Some "2.x" |}.
Proof. vm_compute. reflexivity. Qed.

Example getSource_unknown :
  getSource sampleProjects "charts" (Some "me/charts/main") None
  = Throw (UnknownKey "charts").
Proof. vm_compute. reflexivity. Qed.

(** The claim, read on the code: a source made of one segment would make
    the resolution fail.  It resolves, to the official repository. *)
Lemma single_segment_is_resolved :
  split "/" (dropSchemeSlashes (trim "someone")) = ["someone"]
  /\ getSource sampleProjects "maps" (Some "someone") None
     = Ok {| user := Some "opensearch-project";
             repo := Some "dashboards-maps";
             branch := Some "main" |}.
Proof. split; vm_compute; reflexivity. Qed.

(** C9, amended.  For a registered slug and a requested source, after
    trimming and removing the [github:] prefix: three non-empty segments
    (or more) are taken verbatim as owner, repository and branch; a
    single non-empty segment does not fail: for a project whose configured
    [src] is a complete three-part reference it resolves to a reference
    with all three fields set, the owner and the repository being the
    official ones of the project (and the branch the one of [src]); two
    segments fail with the error that no source was found. *)
Theorem getSource_by_segments (projectSlugs : gmap string Project)
        (slug : string) (project : Project) (requested : string)
        (osdBranch : option string) :
  projectSlugs !! slug = Some project ->
  (forall segment owner repository official,
      split "/" (dropSchemeSlashes (trim requested)) = [segment] ->
      segment <> EmptyString ->
      split "/" (dropScheme (src project)) = [owner; repository; official] ->
      getSource projectSlugs slug (Some requested) osdBranch
      = Ok {| user := Some owner; repo := Some repository;
              branch := Some official |})
  /\ (forall segment,
         split "/" (dropSchemeSlashes (trim requested)) = [segment] ->
         segment <> EmptyString ->
         exists source,
           getSource projectSlugs slug (Some requested) osdBranch = Ok source
           /\ user source = split "/" (dropScheme (src project)) !! 0%nat
           /\ repo source = split "/" (dropScheme (src project)) !! 1%nat)
  /\ (forall u r b rest,
         split "/" (dropSchemeSlashes (trim requested)) = u :: r :: b :: rest ->
         u <> EmptyString -> r <> EmptyString -> b <> EmptyString ->
         getSource projectSlugs slug (Some requested) osdBranch
         = Ok {| user := Some u; repo := Some r; branch := Some b |})
  /\ (forall u r,
         split "/" (dropSchemeSlashes (trim requested)) = [u; r] ->
         getSource projectSlugs slug (Some requested) osdBranch
         = Throw (NoSourceFound (name project) (Some requested) osdBranch)).
Proof.
  intros Hreg. unfold getSource. rewrite Hreg.
  set (source := dropSchemeSlashes (trim requested)).
  change (default EmptyString (Some source)) with source.
  split; [|split; [|split]].
  - intros segment owner repository official Hsplit Hne Hsrc.
    assert (truthy (Some source) = true) as ->.
    { destruct source; [|reflexivity]. simpl in Hsplit. congruence. }
    rewrite Hsplit. cbn [lookup list_lookup].
    rewrite (truthy_nonempty _ Hne). cbn.
    unfold getOfficialSource. rewrite Hreg, Hsrc. reflexivity.
  - intros segment Hsplit Hne.
    assert (truthy (Some source) = true) as ->.
    { destruct source; [|reflexivity]. simpl in Hsplit. congruence. }
    rewrite Hsplit. cbn [lookup list_lookup].
    rewrite (truthy_nonempty _ Hne). cbn.
    unfold getOfficialSource. rewrite Hreg.
    eexists. split; [reflexivity|]. split; reflexivity.
  - intros u r b rest Hsplit Hu Hr Hb.
    assert (truthy (Some source) = true) as ->.
    { destruct source; [|reflexivity]. simpl in Hsplit. congruence. }
    rewrite Hsplit. cbn [lookup list_lookup].
    rewrite !truthy_nonempty by assumption. reflexivity.
  - intros u r Hsplit.
    assert (truthy (Some source) = true) as ->.
    { destruct source; [|reflexivity]. simpl in Hsplit. congruence. }
    rewrite Hsplit. cbn [lookup list_lookup].
    destruct (truthy (Some u)), (truthy (Some r)); reflexivity.
Qed.

Lemma getSource_by_segments_witness :
  getSource sampleProjects "maps" (Some "github://2.x") None
  = Ok {| user := Some "opensearch-project"; repo := Some "dashboards-maps";
          branch := Some "main" |}
  /\ (exists source,
      getSource sampleProjects "maps" (Some "github://2.x") None = Ok source
      /\ user source
         = split "/" (dropScheme (src mapsProject)) !! 0%nat
      /\ repo source
         = split "/" (dropScheme (src mapsProject)) !! 1%nat)
  /\ getSource sampleProjects "maps" (Some "me/my-maps/feature") None
     = Ok {| user := Some "me"; repo := Some "my-maps"; branch := Some "feature" |}
  /\ getSource sampleProjects "maps" (Some "me/my-maps") None
     = Throw (NoSourceFound "Maps" (Some "me/my-maps") None).
Proof.
  destruct (getSource_by_segments sampleProjects "maps" mapsProject
                                  "github://2.x" None eq_refl)
    as (Hofficial & Hone & _ & _).
  destruct (getSource_by_segments sampleProjects "maps" mapsProject
                                  "me/my-maps/feature" None eq_refl)
    as (_ & _ & Hthree & _).
  destruct (getSource_by_segments sampleProjects "maps" mapsProject
                                  "me/my-maps" None eq_refl)
    as (_ & _ & _ & Htwo).
  split; [|split; [|split]].
  - apply (Hofficial "2.x" "opensearch-project" "dashboards-maps" "main");
      [reflexivity | discriminate | reflexivity].
  - apply (Hone "2.x"); [reflexivity | discriminate].
  - apply (Hthree "me" "my-maps" "feature" []);
      [reflexivity | discriminate | discriminate | discriminate].
  - apply (Htwo "me" "my-maps"). reflexivity.
Defined.

End SourceFacts.

(** ** Configuration files *)
Section ConfigureFacts.
Import JsString Utils Reference Options Samples.

Example configureOpenSearch_once :
  readLines (OpenSearch.configureOpenSearch bareInstallation releaseOptions shippedYml)
  = [ "#cluster.name: my-application"; "#http.port: 9200"; EmptyString;
      "network.host: 127.0.0.1"; "http.port: 9200";
      "discovery.type: single-node";
      "cluster.routing.allocation.disk.threshold_enabled: false" ].
Proof. vm_compute. reflexivity. Qed.

(** The claim, read on the code: after two runs of [configureOpenSearch]
    each appended line would be in the file once.  The second run removes
    the lines of three of the keys it appends and leaves [http.port] in
    place, so that line is in the file twice. *)
Lemma configureOpenSearch_twice_duplicates :
  readLines
    (OpenSearch.configureOpenSearch bareInstallation releaseOptions
       (OpenSearch.configureOpenSearch bareInstallation releaseOptions shippedYml))
  = [ "#cluster.name: my-application"; "#http.port: 9200"; EmptyString;
      "http.port: 9200"; EmptyString;
      "network.host: 127.0.0.1"; "http.port: 9200";
      "discovery.type: single-node";
      "cluster.routing.allocation.disk.threshold_enabled: false" ]
  /\ countLine "http.port: 9200"
       (readLines
          (OpenSearch.configureOpenSearch bareInstallation releaseOptions
             (OpenSearch.configureOpenSearch bareInstallation releaseOptions
                                             shippedYml)))
     = 2.
Proof. split; vm_compute; reflexivity. Qed.

Lemma singleLine_app (a b : string) :
  singleLine (a +:+ b) = singleLine a && singleLine b.
Proof.
  induction a as [|c a IH]; simpl; [reflexivity|].
  rewrite IH, andb_assoc. reflexivity.
Qed.

(** A line followed by a line feed is read back as that line. *)
Lemma segments_line (l rest : string) :
  singleLine l = true ->
  segments (l +:+ String LF rest) = l :: segments rest.
Proof.
  induction l as [|c l IH]; simpl; intros Hl; [reflexivity|].
  apply andb_prop in Hl as [Hc Hl]. apply andb_prop in Hc as [Hlf Hcr].
  apply negb_true_iff in Hlf, Hcr. rewrite Hlf, Hcr, (IH Hl). reflexivity.
Qed.

Lemma segments_writeLines (ls : list string) :
  Forall (fun l => singleLine l = true) ls ->
  segments (writeLines ls) = ls ++ [EmptyString].
Proof.
  induction 1 as [|l ls Hl _ IH]; simpl; [reflexivity|].
  rewrite (segments_line _ _ Hl), IH. reflexivity.
Qed.

Lemma dropLastEmpty_snoc (ls : list string) :
  dropLastEmpty (ls ++ [EmptyString]) = ls.
Proof.
  induction ls as [|l ls IH]; [reflexivity|].
  change ((l :: ls) ++ [EmptyString]) with (l :: (ls ++ [EmptyString])).
  simpl. rewrite IH. destruct ls; reflexivity.
Qed.

(** Written lines are read back as they were. *)
Lemma readLines_writeLines (ls : list string) :
  Forall (fun l => singleLine l = true) ls ->
  readLines (writeLines ls) = ls.
Proof.
  intros H. unfold readLines. rewrite (segments_writeLines _ H).
  apply dropLastEmpty_snoc.
Qed.

(** Whatever the text, the lines read from it hold no terminator. *)
Lemma segments_single (n : nat) :
  forall s, String.length s <= n ->
            Forall (fun l => singleLine l = true) (segments s).
Proof.
  induction n as [|n IH]; intros [|c s] Hlen; simpl in *;
    try (repeat constructor; fail); try lia.
  destruct (Ascii.eqb c LF) eqn:Hlf.
  - constructor; [reflexivity | apply IH; lia].
  - destruct (Ascii.eqb c CR) eqn:Hcr.
    + destruct s as [|d s]; [repeat constructor|].
      destruct (Ascii.eqb d LF).
      * constructor; [reflexivity|]. destruct n; simpl in *; [lia|].
        apply Forall_impl with (P := fun l => singleLine l = true); [|auto].
        apply IH. simpl. lia.
      * constructor; [reflexivity | apply IH; simpl in *; lia].
    + pose proof (IH s ltac:(lia)) as Hs.
      destruct (segments s) as [|h t]; [repeat constructor; simpl; now rewrite Hlf, Hcr|].
      inversion Hs as [|? ? Hh Ht]; subst.
      constructor; [simpl; rewrite Hlf, Hcr, Hh; reflexivity | exact Ht].
Qed.

Lemma dropLastEmpty_Forall (P : string -> Prop) (l : list string) :
  Forall P l -> Forall P (dropLastEmpty l).
Proof.
  induction 1 as [|x l Hx Hl IH]; simpl; [constructor|].
  destruct l as [|y l]; [destruct x; repeat constructor; exact Hx|].
  constructor; assumption.
Qed.

Lemma readLines_single (s : string) :
  Forall (fun l => singleLine l = true) (readLines s).
Proof.
  apply dropLastEmpty_Forall, (segments_single (String.length s)). lia.
Qed.

Lemma writeLines_app (a b : list string) :
  writeLines (a ++ b) = writeLines a +:+ writeLines b.
Proof.
  induction a as [|l a IH]; simpl; [reflexivity|].
  rewrite IH, append_assoc. reflexivity.
Qed.

Lemma join_writeLines (texts : list string) :
  texts <> [] ->
  join (String LF EmptyString) texts +:+ String LF EmptyString = writeLines texts.
Proof.
  induction texts as [|x texts IH]; [contradiction|]. intros _.
  destruct texts as [|y texts]; [reflexivity|].
  change (join (String LF EmptyString) (x :: y :: texts))
    with (x +:+ String LF EmptyString +:+ join (String LF EmptyString) (y :: texts)).
  rewrite !append_assoc, IH by discriminate. reflexivity.
Qed.

(** Appending to a file made of whole lines adds an empty line and then
    the texts. *)
Lemma appendToFile_lines (ls texts : list string) :
  texts <> [] ->
  _appendToFile texts (writeLines ls) = writeLines (ls ++ EmptyString :: texts).
Proof.
  intros Hne. unfold _appendToFile.
  rewrite writeLines_app. simpl. rewrite (join_writeLines _ Hne). reflexivity.
Qed.

(** The lines of a file after a delete-then-append pass. *)
Lemma configure_lines (keys params : list string) (content : string) :
  params <> [] ->
  Forall (fun l => singleLine l = true) params ->
  readLines (_appendToFile params (_deleteFromFile keys content))
  = List.filter (survives keys) (readLines content) ++ EmptyString :: params.
Proof.
  intros Hne Hparams. unfold _deleteFromFile.
  rewrite (appendToFile_lines _ _ Hne). apply readLines_writeLines.
  apply Forall_app. split.
  - pose proof (readLines_single content) as Hall.
    induction Hall as [|l ls Hl _ IH]; simpl; [constructor|].
    destruct (survives keys l); [constructor; assumption | assumption].
  - constructor; [reflexivity | exact Hparams].
Qed.

Lemma filter_survivors_again (keys : list string) (ls : list string) :
  List.filter (survives keys) (List.filter (survives keys) ls)
  = List.filter (survives keys) ls.
Proof.
  induction ls as [|l ls IH]; simpl; [reflexivity|].
  destruct (survives keys l) eqn:E; simpl; rewrite ?E, IH; reflexivity.
Qed.

Lemma filter_none (keys : list string) (ls : list string) :
  Forall (fun l => survives keys l = false) ls ->
  List.filter (survives keys) ls = [].
Proof. induction 1 as [|l ls Hl _ IH]; simpl; [|rewrite Hl]; auto. Qed.

Lemma countLine_app (p : string) (a b : list string) :
  countLine p (a ++ b) = countLine p a + countLine p b.
Proof.
  induction a as [|l a IH]; simpl; [reflexivity|].
  destruct (String.eqb p l); rewrite IH; reflexivity.
Qed.

Lemma countLine_survivors (keys : list string) (p : string) (ls : list string) :
  survives keys p = false ->
  countLine p (List.filter (survives keys) ls) = 0.
Proof.
  intros Hp. induction ls as [|l ls IH]; simpl; [reflexivity|].
  destruct (survives keys l) eqn:E; [|exact IH]. simpl.
  destruct (String.eqb_spec p l) as [->|_]; [congruence | exact IH].
Qed.

(** Idempotence of a delete-then-append pass whose deleted keys cover the
    appended lines: after two passes every appended line is in the file as
    often as it is in the list appended. *)
Lemma configure_twice (keys params : list string) (content : string) :
  Forall (fun l => singleLine l = true) params ->
  Forall (fun l => survives keys l = false) params ->
  survives keys EmptyString = true ->
  forall p,
    In p params ->
    countLine p
      (readLines
         (_appendToFile params
            (_deleteFromFile keys
               (_appendToFile params (_deleteFromFile keys content)))))
    = countLine p params.
Proof.
  intros Hsingle Hcovered Hempty p Hin.
  assert (params <> []) as Hne by (intros ->; contradiction).
  rewrite !configure_lines by assumption.
  rewrite List.filter_app, filter_survivors_again. simpl. rewrite Hempty.
  rewrite (filter_none _ _ Hcovered).
  assert (survives keys p = false) as Hp.
  { rewrite Forall_forall in Hcovered. apply Hcovered. apply list_elem_of_In, Hin. }
  rewrite <- app_assoc, countLine_app, (countLine_survivors _ _ _ Hp). simpl.
  destruct (String.eqb_spec p EmptyString) as [->|_]; [congruence|reflexivity].
Qed.

Lemma covered_by (keys : list string) (key line : string) :
  In key keys -> includes line key = true -> survives keys line = false.
Proof.
  intros Hin Hinc. unfold survives. apply negb_false_iff, existsb_exists.
  exists key. split; assumption.
Qed.

(** Each line that [configureDashboards] appends starts with one of the
    keys it deletes. *)
Ltac covered_with key :=
  apply (covered_by _ key); [simpl; tauto | reflexivity].

Ltac covered :=
  first [ covered_with "server.host" | covered_with "server.port"
        | covered_with "opensearch.ssl.verificationMode"
        | covered_with "opensearch.ignoreVersionMismatch"
        | covered_with "savedObjects.maxImportPayloadBytes"
        | covered_with "server.maxPayloadBytes" | covered_with "logging.json"
        | covered_with "data.search.aggs.shardDelay.enabled"
        | covered_with "csp.warnLegacyBrowsers"
        | covered_with "opensearch.hosts" | covered_with "opensearch.username"
        | covered_with "opensearch.password" ].

Lemma dashboards_params_covered (opts : Options) :
  Forall (fun l => survives (Dashboards.linesToDelete opts) l = false)
         (Dashboards.configParams opts).
Proof.
  unfold Dashboards.configParams, Dashboards.linesToDelete.
  destruct (security opts); repeat (constructor; [covered|]); constructor.
Qed.

Lemma dashboards_params_single (opts : Options) :
  SingleLineOptions opts ->
  Forall (fun l => singleLine l = true) (Dashboards.configParams opts).
Proof.
  intros (Hdh & Hdp & Hoh & Hop & Hu & Hp).
  unfold Dashboards.configParams.
  destruct (security opts);
    repeat (constructor;
            [rewrite ?singleLine_app, ?Hdh, ?Hdp, ?Hoh, ?Hop, ?Hu, ?Hp;
             reflexivity|]);
    constructor.
Qed.

Lemma countLine_absent (p : string) (l : list string) :
  ~ In p l -> countLine p l = 0.
Proof.
  induction l as [|a l IH]; simpl; intros Hnot; [reflexivity|].
  destruct (String.eqb_spec p a) as [->|_]; [tauto | apply IH; tauto].
Qed.

(** Lines told apart by a tag occur once each. *)
Lemma countLine_tagged (tag : string -> string) (l : list string) :
  List.NoDup (map tag l) ->
  forall p, In p l -> countLine p l = 1.
Proof.
  induction l as [|a l IH]; simpl; intros Hnodup p Hin; [contradiction|].
  inversion Hnodup as [|? ? Hfresh Hrest]; subst.
  destruct (String.eqb_spec p a) as [->|Hne].
  - rewrite countLine_absent; [reflexivity|].
    intros Ha. apply Hfresh, in_map, Ha.
  - destruct Hin as [->|Hin]; [contradiction | apply IH; assumption].
Qed.

(** The lines appended by [configureDashboards] differ within their first
    twelve characters. *)
Lemma dashboards_params_distinct (opts : Options) (p : string) :
  In p (Dashboards.configParams opts) ->
  countLine p (Dashboards.configParams opts) = 1.
Proof.
  apply (countLine_tagged (firstChars 12)).
  unfold Dashboards.configParams.
  destruct (security opts); cbn [app map];
    repeat (constructor; [cbn; intuition discriminate|]); constructor.
Qed.

(** [configureDashboards] deletes every key it appends: run twice, it
    leaves each appended line in the file exactly once. *)
Lemma configureDashboards_twice_once (opts : Options) (content p : string) :
  SingleLineOptions opts ->
  In p (Dashboards.configParams opts) ->
  countLine p
    (readLines
       (Dashboards.configureDashboards opts
          (Dashboards.configureDashboards opts content)))
  = 1.
Proof.
  intros Hopts Hin. unfold Dashboards.configureDashboards.
  rewrite configure_twice.
  - apply dashboards_params_distinct, Hin.
  - apply dashboards_params_single, Hopts.
  - apply dashboards_params_covered.
  - unfold Dashboards.linesToDelete. destruct (security opts); reflexivity.
  - exact Hin.
Qed.


Lemma countLine_filter (keys : list string) (p : string) (ls : list string) :
  countLine p (List.filter (survives keys) ls)
  = if survives keys p then countLine p ls else 0.
Proof.
  induction ls as [|l ls IH]; simpl; [destruct (survives keys p); reflexivity|].
  destruct (survives keys l) eqn:E; simpl;
    (destruct (String.eqb_spec p l) as [->|_]; rewrite IH;
     [rewrite E; reflexivity | reflexivity]).
Qed.

(** How often a line is in the file after one delete-then-append pass. *)
Lemma configure_once_count (keys params : list string) (content p : string) :
  params <> [] ->
  Forall (fun l => singleLine l = true) params ->
  p <> EmptyString ->
  countLine p (readLines (_appendToFile params (_deleteFromFile keys content)))
  = (if survives keys p then countLine p (readLines content) else 0)
    + countLine p params.
Proof.
  intros Hne Hsingle Hp.
  rewrite configure_lines by assumption.
  rewrite countLine_app, countLine_filter. simpl.
  destruct (String.eqb_spec p EmptyString) as [->|_]; [congruence|reflexivity].
Qed.

(** How often a line is in the file after two such passes. *)
Lemma configure_twice_count (keys params : list string) (content p : string) :
  params <> [] ->
  Forall (fun l => singleLine l = true) params ->
  p <> EmptyString ->
  countLine p
    (readLines
       (_appendToFile params
          (_deleteFromFile keys
             (_appendToFile params (_deleteFromFile keys content)))))
  = (if survives keys p
     then countLine p (readLines content) + countLine p params else 0)
    + countLine p params.
Proof.
  intros Hne Hsingle Hp.
  rewrite (configure_once_count _ _ _ _ Hne Hsingle Hp).
  rewrite (configure_once_count _ _ _ _ Hne Hsingle Hp).
  destruct (survives keys p); reflexivity.
Qed.

Lemma opensearch_params_single (inst : OpenSearch.Installation) (opts : Options) :
  SingleLineOptions opts ->
  singleLine (OpenSearch.tmpdir inst) = true ->
  Forall (fun l => singleLine l = true) (OpenSearch.configParams inst opts).
Proof.
  intros (_ & _ & Hoh & Hop & _ & _) Htmp.
  unfold OpenSearch.configParams, OpenSearch.securityParams.
  destruct (OpenSearch.hasSecurity inst), (security opts),
    (OpenSearch.hasIndexManagement inst), (OpenSearch.hasAlerting inst),
    (OpenSearch.hasSql inst); cbn [app];
    repeat (constructor;
            [rewrite ?singleLine_app, ?Hoh, ?Hop, ?Htmp; reflexivity|]);
    constructor.
Qed.

Lemma opensearch_params_filled (inst : OpenSearch.Installation) (opts : Options) :
  Forall (fun l => l <> EmptyString) (OpenSearch.configParams inst opts).
Proof.
  unfold OpenSearch.configParams, OpenSearch.securityParams.
  destruct (OpenSearch.hasSecurity inst), (security opts),
    (OpenSearch.hasIndexManagement inst), (OpenSearch.hasAlerting inst),
    (OpenSearch.hasSql inst); cbn [app];
    repeat (constructor; [discriminate|]); constructor.
Qed.

Lemma opensearch_params_distinct (inst : OpenSearch.Installation) (opts : Options)
      (p : string) :
  In p (OpenSearch.configParams inst opts) ->
  countLine p (OpenSearch.configParams inst opts) = 1.
Proof.
  apply (countLine_tagged (firstChars 52)).
  unfold OpenSearch.configParams, OpenSearch.securityParams.
  destruct (OpenSearch.hasSecurity inst), (security opts),
    (OpenSearch.hasIndexManagement inst), (OpenSearch.hasAlerting inst),
    (OpenSearch.hasSql inst); cbn [app map];
    repeat (constructor; [cbn; intuition discriminate|]); constructor.
Qed.

(** A text whose first character is nowhere in the line is not in it. *)
Lemma includes_head (s t : string) (c : ascii) :
  includes s (String c EmptyString) = false -> includes s (String c t) = false.
Proof.
  induction s as [|d s IH]; simpl; intros H; [reflexivity|].
  apply orb_false_iff in H as [Hd Hs]. rewrite andb_true_r in Hd.
  rewrite Hd. simpl. exact (IH Hs).
Qed.

Lemma digits_lack (c : ascii) (s : string) :
  is_digit c = false -> allDigits s = true ->
  includes s (String c EmptyString) = false.
Proof.
  intros Hc. induction s as [|d s IH]; simpl; intros H; [reflexivity|].
  apply andb_prop in H as [Hd Hs]. rewrite (IH Hs), orb_false_r, andb_true_r.
  destruct (Ascii.eqb_spec c d) as [->|_]; [congruence|reflexivity].
Qed.

(** The [http.port] line of a numeric port holds none of the keys that
    [configureOpenSearch] deletes. *)
Lemma http_port_survives (port : string) :
  allDigits port = true ->
  survives OpenSearch.deletedKeys ("http.port: " +:+ port) = true.
Proof.
  intros Hport. unfold survives, OpenSearch.deletedKeys. cbn [existsb].
  rewrite (includes_head _ _ "n"%char)
    by (simpl; apply digits_lack; [reflexivity | exact Hport]).
  rewrite (includes_head _ _ "d"%char)
    by (simpl; apply digits_lack; [reflexivity | exact Hport]).
  rewrite (includes_head _ _ "c"%char)
    by (simpl; apply digits_lack; [reflexivity | exact Hport]).
  reflexivity.
Qed.

(** C6, amended.  [configureDashboards] is idempotent: run twice on the
    same file with the same options (whose values hold no line break), it
    leaves each line it appends in the file exactly once, as every line it
    appends holds one of the keys whose lines it deletes first.
    [configureOpenSearch] deletes the lines of three keys only: after one
    run a line it appends is in the file once, plus as often as the file
    held it before when it holds none of the three keys; after a second
    run on the same file the appended lines that hold one of the three
    keys ([network.host], [discovery.type], the disk threshold) are there
    once, and every other appended line, such as [http.port] with a
    numeric port, is there twice (plus as often as the first file held
    it).  [prepareOpenSearch] configures a folder only right after it
    unpacked the archive into it. *)
Theorem configure_twice_appended_lines :
  (forall opts content p,
      SingleLineOptions opts ->
      In p (Dashboards.configParams opts) ->
      countLine p
        (readLines
           (Dashboards.configureDashboards opts
              (Dashboards.configureDashboards opts content)))
      = 1)
  /\ (forall inst opts content p,
         SingleLineOptions opts ->
         singleLine (OpenSearch.tmpdir inst) = true ->
         In p (OpenSearch.configParams inst opts) ->
         countLine p
           (readLines (OpenSearch.configureOpenSearch inst opts content))
         = (if survives OpenSearch.deletedKeys p
            then countLine p (readLines content) + 1 else 1)
         /\ countLine p
              (readLines
                 (OpenSearch.configureOpenSearch inst opts
                    (OpenSearch.configureOpenSearch inst opts content)))
            = (if survives OpenSearch.deletedKeys p
               then countLine p (readLines content) + 2 else 1))
  /\ (forall inst opts,
         survives OpenSearch.deletedKeys ("network.host: " +:+ opensearchHost opts)
         = false
         /\ survives OpenSearch.deletedKeys "discovery.type: single-node" = false
         /\ survives OpenSearch.deletedKeys
                     "cluster.routing.allocation.disk.threshold_enabled: false"
            = false
         /\ In ("http.port: " +:+ opensearchPort opts)
               (OpenSearch.configParams inst opts)
         /\ (allDigits (opensearchPort opts) = true ->
             survives OpenSearch.deletedKeys ("http.port: " +:+ opensearchPort opts)
             = true))
  /\ (forall sup opts folder,
         In (OpenSearch.Configure folder) (OpenSearch.prepareOpenSearch sup opts).2 ->
         exists version archive,
           (OpenSearch.prepareOpenSearch sup opts).2
           = [ OpenSearch.Download version (refreshDownloads opts);
               OpenSearch.Unarchive archive folder;
               OpenSearch.Configure folder ]).
Proof.
  split; [|split; [|split]].
  - intros opts content p Hopts Hin.
    apply configureDashboards_twice_once; assumption.
  - intros inst opts content p Hopts Htmp Hin.
    assert (OpenSearch.configParams inst opts <> []) as Hne
        by (intros E; rewrite E in Hin; contradiction).
    pose proof (opensearch_params_single inst opts Hopts Htmp) as Hsingle.
    assert (p <> EmptyString) as Hp.
    { pose proof (opensearch_params_filled inst opts) as Hall.
      rewrite Forall_forall in Hall. apply Hall, list_elem_of_In, Hin. }
    unfold OpenSearch.configureOpenSearch.
    rewrite (configure_twice_count _ _ _ _ Hne Hsingle Hp).
    rewrite (configure_once_count _ _ _ _ Hne Hsingle Hp).
    rewrite (opensearch_params_distinct inst opts p Hin).
    destruct (survives OpenSearch.deletedKeys p); split; lia.
  - intros inst opts. split; [reflexivity|]. split; [reflexivity|].
    split; [reflexivity|]. split.
    + unfold OpenSearch.configParams. right. left. reflexivity.
    + apply http_port_survives.
  - intros sup opts folder. unfold OpenSearch.prepareOpenSearch.
    destruct (isVersionJs (opensearchVersion opts)); cbn [negb snd];
      [|intros [H|[]]; discriminate].
    destruct (OpenSearch.downloads sup); cbn [negb snd];
      [|intros [H|[]]; discriminate].
    destruct (OpenSearch.unpacks sup); cbn [negb snd app].
    + intros [H|[H|[H|[]]]]; try discriminate. injection H as <-.
      eexists _, _. reflexivity.
    + intros [H|[H|[]]]; discriminate.
Qed.

Lemma configure_twice_appended_lines_witness :
  countLine "server.port: 5601"
    (readLines
       (Dashboards.configureDashboards releaseOptions
          (Dashboards.configureDashboards releaseOptions shippedYml)))
  = 1
  /\ countLine "network.host: 127.0.0.1"
       (readLines
          (OpenSearch.configureOpenSearch bareInstallation releaseOptions
             (OpenSearch.configureOpenSearch bareInstallation releaseOptions
                                             shippedYml)))
     = 1
  /\ survives OpenSearch.deletedKeys ("http.port: " +:+ opensearchPort releaseOptions)
     = true
  /\ exists version archive,
      (OpenSearch.prepareOpenSearch sampleSupplies releaseOptions).2
      = [ OpenSearch.Download version (refreshDownloads releaseOptions);
          OpenSearch.Unarchive archive "/srv/osd/OpenSearch-v2.13.0";
          OpenSearch.Configure "/srv/osd/OpenSearch-v2.13.0" ].
Proof.
  destruct configure_twice_appended_lines as (Hdash & Hos & Hkeys & Hprep).
  assert (SingleLineOptions releaseOptions) as Hopts
      by (repeat split; reflexivity).
  split; [|split; [|split]].
  - apply (Hdash releaseOptions shippedYml "server.port: 5601" Hopts).
    right. left. reflexivity.
  - destruct (Hos bareInstallation releaseOptions shippedYml
                  "network.host: 127.0.0.1" Hopts eq_refl) as [_ Htwice];
      [left; reflexivity | exact Htwice].
  - destruct (Hkeys bareInstallation releaseOptions) as (_ & _ & _ & _ & Hport).
    apply Hport. reflexivity.
  - apply (Hprep sampleSupplies releaseOptions "/srv/osd/OpenSearch-v2.13.0").
    right. right. left. reflexivity.
Defined.

End ConfigureFacts.
